(** * gomonitor: the telegraf [goruntime] input plugin

    A shallow embedding of
    [telegraf/plugins/inputs/goruntime/metric.go] and
    [telegraf/plugins/inputs/goruntime/goruntime.go], and the properties
    of the flattening of a runtime snapshot into a measurement and of the
    poll cycle over the configured endpoints.

    Go integers are modelled as [Z] with the range of their type kept in
    a well-formedness predicate and every conversion written out; a Go
    [map] is a [gmap]; a fixed-size array is a list whose length is part
    of well-formedness, indexed with a lookup that fails out of range. *)

From Stdlib Require Import ZArith Lia.
From Stdlib Require Import Floats.SpecFloat.
From stdpp Require Import base numbers strings gmap list relations pretty.

Open Scope Z_scope.

(** ** Go numeric types *)

(** The conversion [int64(x)]: the low 64 bits of [x] read as a two's
    complement number. *)
Definition int64 (x : Z) : Z := (x + 2 ^ 63) mod 2 ^ 64 - 2 ^ 63.

(** Addition on [uint32] wraps around at [2^32]. *)
Definition uint32_add (x y : Z) : Z := (x + y) mod 2 ^ 32.

(** The conversion [float64(x)] of a [float64] is the identity. *)
Definition float64 (x : spec_float) : spec_float := x.

(** The ranges of the Go types.  [int] is taken at 64 bits; its
    conversion to [int64] keeps the value at either width. *)
Definition is_int (x : Z) : Prop := - 2 ^ 63 <= x < 2 ^ 63.
Definition is_int64 (x : Z) : Prop := - 2 ^ 63 <= x < 2 ^ 63.
Definition is_uint32 (x : Z) : Prop := 0 <= x < 2 ^ 32.
Definition is_uint64 (x : Z) : Prop := 0 <= x < 2 ^ 64.

(** ** [runtime.MemStats]

    The struct of the Go runtime, with the fields this package reads.
    [PauseNs] is the array [[256]uint64]. *)
Module runtime.
Record MemStats := {
  Alloc : Z;
  TotalAlloc : Z;
  Sys : Z;
  Lookups : Z;
  Mallocs : Z;
  Frees : Z;
  HeapAlloc : Z;
  HeapSys : Z;
  HeapIdle : Z;
  HeapInuse : Z;
  HeapReleased : Z;
  HeapObjects : Z;
  StackInuse : Z;
  StackSys : Z;
  MSpanInuse : Z;
  MSpanSys : Z;
  MCacheInuse : Z;
  MCacheSys : Z;
  GCSys : Z;
  OtherSys : Z;
  NextGC : Z;
  LastGC : Z;
  PauseTotalNs : Z;
  PauseNs : list Z;
  NumGC : Z;
  GCCPUFraction : spec_float
}.
End runtime.

(** ** [RuntimeData] (goruntime.go) *)
Module RuntimeData.
Record RuntimeData := {
  Serial : string;
  CPUNum : Z;
  ThreadNum : Z;
  GoRoutineNum : Z;
  CpuPercent : Z;
  MemPercent : Z;
  Memstats : runtime.MemStats
}.
End RuntimeData.
Abbreviation RuntimeData := RuntimeData.RuntimeData.

(** ** [Fields] (metric.go) *)
Module Fields.
Record Fields := {
  Serial : string;
  NumCpu : Z;
  NumThread : Z;
  NumGoroutine : Z;
  NumCgoCall : Z;
  CpuPercent : Z;
  MemPercent : Z;
  Alloc : Z;
  TotalAlloc : Z;
  Sys : Z;
  Lookups : Z;
  Mallocs : Z;
  Frees : Z;
  HeapAlloc : Z;
  HeapSys : Z;
  HeapIdle : Z;
  HeapInuse : Z;
  HeapReleased : Z;
  HeapObjects : Z;
  StackInuse : Z;
  StackSys : Z;
  MSpanInuse : Z;
  MSpanSys : Z;
  MCacheInuse : Z;
  MCacheSys : Z;
  OtherSys : Z;
  GCSys : Z;
  NextGC : Z;
  LastGC : Z;
  PauseTotalNs : Z;
  PauseNs : Z;
  NumGC : Z;
  GCCPUFraction : spec_float;
  Goarch : string;
  Goos : string;
  Version : string
}.
End Fields.
Abbreviation Fields := Fields.Fields.

(** The composite literal [Fields{}]: every field has its zero value. *)
Definition Fields_zero : Fields :=
  Fields.Build_Fields ""
    0 0 0 0 0 0
    0 0 0 0 0 0
    0 0 0 0 0 0
    0 0 0 0 0 0
    0
    0 0 0 0 0 0 (S754_zero false)
    "" "" "".

(** A value of a [map[string]interface{}] built by [Values]: an [int64]
    or a [float64]. *)
Inductive value :=
  | VInt (n : Z)
  | VFloat (x : spec_float).

(** ** metric.go *)

(** [collectGCStats].  The index expression is computed on [uint32];
    indexing the array out of range panics ([None]). *)
Definition collectGCStats (fields : Fields) (m : runtime.MemStats) : option Fields :=
  pause ← runtime.PauseNs m !! Z.to_nat (uint32_add (runtime.NumGC m) 255 mod 256);
  Some {|
    Fields.Serial := Fields.Serial fields;
    Fields.NumCpu := Fields.NumCpu fields;
    Fields.NumThread := Fields.NumThread fields;
    Fields.NumGoroutine := Fields.NumGoroutine fields;
    Fields.NumCgoCall := Fields.NumCgoCall fields;
    Fields.CpuPercent := Fields.CpuPercent fields;
    Fields.MemPercent := Fields.MemPercent fields;
    Fields.Alloc := Fields.Alloc fields;
    Fields.TotalAlloc := Fields.TotalAlloc fields;
    Fields.Sys := Fields.Sys fields;
    Fields.Lookups := Fields.Lookups fields;
    Fields.Mallocs := Fields.Mallocs fields;
    Fields.Frees := Fields.Frees fields;
    Fields.HeapAlloc := Fields.HeapAlloc fields;
    Fields.HeapSys := Fields.HeapSys fields;
    Fields.HeapIdle := Fields.HeapIdle fields;
    Fields.HeapInuse := Fields.HeapInuse fields;
    Fields.HeapReleased := Fields.HeapReleased fields;
    Fields.HeapObjects := Fields.HeapObjects fields;
    Fields.StackInuse := Fields.StackInuse fields;
    Fields.StackSys := Fields.StackSys fields;
    Fields.MSpanInuse := Fields.MSpanInuse fields;
    Fields.MSpanSys := Fields.MSpanSys fields;
    Fields.MCacheInuse := Fields.MCacheInuse fields;
    Fields.MCacheSys := Fields.MCacheSys fields;
    Fields.OtherSys := Fields.OtherSys fields;
    Fields.GCSys := int64 (runtime.GCSys m);
    Fields.NextGC := int64 (runtime.NextGC m);
    Fields.LastGC := int64 (runtime.LastGC m);
    Fields.PauseTotalNs := int64 (runtime.PauseTotalNs m);
    Fields.PauseNs := int64 pause;
    Fields.NumGC := int64 (runtime.NumGC m);
    Fields.GCCPUFraction := float64 (runtime.GCCPUFraction m);
    Fields.Goarch := Fields.Goarch fields;
    Fields.Goos := Fields.Goos fields;
    Fields.Version := Fields.Version fields
  |}.

(** [collectMemStats]. *)
Definition collectMemStats (fields : Fields) (m : runtime.MemStats) : Fields :=
  {|
    Fields.Serial := Fields.Serial fields;
    Fields.NumCpu := Fields.NumCpu fields;
    Fields.NumThread := Fields.NumThread fields;
    Fields.NumGoroutine := Fields.NumGoroutine fields;
    Fields.NumCgoCall := Fields.NumCgoCall fields;
    Fields.CpuPercent := Fields.CpuPercent fields;
    Fields.MemPercent := Fields.MemPercent fields;
    Fields.Alloc := int64 (runtime.Alloc m);
    Fields.TotalAlloc := int64 (runtime.TotalAlloc m);
    Fields.Sys := int64 (runtime.Sys m);
    Fields.Lookups := int64 (runtime.Lookups m);
    Fields.Mallocs := int64 (runtime.Mallocs m);
    Fields.Frees := int64 (runtime.Frees m);
    Fields.HeapAlloc := int64 (runtime.HeapAlloc m);
    Fields.HeapSys := int64 (runtime.HeapSys m);
    Fields.HeapIdle := int64 (runtime.HeapIdle m);
    Fields.HeapInuse := int64 (runtime.HeapInuse m);
    Fields.HeapReleased := int64 (runtime.HeapReleased m);
    Fields.HeapObjects := int64 (runtime.HeapObjects m);
    Fields.StackInuse := int64 (runtime.StackInuse m);
    Fields.StackSys := int64 (runtime.StackSys m);
    Fields.MSpanInuse := int64 (runtime.MSpanInuse m);
    Fields.MSpanSys := int64 (runtime.MSpanSys m);
    Fields.MCacheInuse := int64 (runtime.MCacheInuse m);
    Fields.MCacheSys := int64 (runtime.MCacheSys m);
    Fields.OtherSys := int64 (runtime.OtherSys m);
    Fields.GCSys := Fields.GCSys fields;
    Fields.NextGC := Fields.NextGC fields;
    Fields.LastGC := Fields.LastGC fields;
    Fields.PauseTotalNs := Fields.PauseTotalNs fields;
    Fields.PauseNs := Fields.PauseNs fields;
    Fields.NumGC := Fields.NumGC fields;
    Fields.GCCPUFraction := Fields.GCCPUFraction fields;
    Fields.Goarch := Fields.Goarch fields;
    Fields.Goos := Fields.Goos fields;
    Fields.Version := Fields.Version fields
  |}.

(** The method [Tags] of [Fields]. *)
Definition Tags (f : Fields) : gmap string string :=
  {[ "serial"%string := Fields.Serial f ]}.

(** The method [Values] of [Fields]. *)
Definition Values (f : Fields) : gmap string value :=
  list_to_map [
    ("cpu.count"%string, VInt (Fields.NumCpu f));
    ("cpu.goroutines"%string, VInt (Fields.NumGoroutine f));
    ("cpu.cgo_calls"%string, VInt (Fields.NumCgoCall f));
    ("cpu.thread"%string, VInt (Fields.NumThread f));

    ("cpu.percent"%string, VInt (Fields.CpuPercent f));
    ("mem.percent"%string, VInt (Fields.MemPercent f));

    ("mem.alloc"%string, VInt (Fields.Alloc f));
    ("mem.total"%string, VInt (Fields.TotalAlloc f));
    ("mem.sys"%string, VInt (Fields.Sys f));
    ("mem.lookups"%string, VInt (Fields.Lookups f));
    ("mem.malloc"%string, VInt (Fields.Mallocs f));
    ("mem.frees"%string, VInt (Fields.Frees f));

    ("mem.heap.alloc"%string, VInt (Fields.HeapAlloc f));
    ("mem.heap.sys"%string, VInt (Fields.HeapSys f));
    ("mem.heap.idle"%string, VInt (Fields.HeapIdle f));
    ("mem.heap.inuse"%string, VInt (Fields.HeapInuse f));
    ("mem.heap.released"%string, VInt (Fields.HeapReleased f));
    ("mem.heap.objects"%string, VInt (Fields.HeapObjects f));

    ("mem.stack.inuse"%string, VInt (Fields.StackInuse f));
    ("mem.stack.sys"%string, VInt (Fields.StackSys f));
    ("mem.stack.mspan_inuse"%string, VInt (Fields.MSpanInuse f));
    ("mem.stack.mspan_sys"%string, VInt (Fields.MSpanSys f));
    ("mem.stack.mcache_inuse"%string, VInt (Fields.MCacheInuse f));
    ("mem.stack.mcache_sys"%string, VInt (Fields.MCacheSys f));
    ("mem.othersys"%string, VInt (Fields.OtherSys f));

    ("mem.gc.sys"%string, VInt (Fields.GCSys f));
    ("mem.gc.next"%string, VInt (Fields.NextGC f));
    ("mem.gc.last"%string, VInt (Fields.LastGC f));
    ("mem.gc.pause_total"%string, VInt (Fields.PauseTotalNs f));
    ("mem.gc.pause"%string, VInt (Fields.PauseNs f));
    ("mem.gc.count"%string, VInt (Fields.NumGC f));
    ("mem.gc.cpu_fraction"%string, VFloat (float64 (Fields.GCCPUFraction f)))
  ].

(** ** Collaborators of goruntime.go *)

(** A Go [error] value.  An error returned by a collaborator (net/http,
    encoding/json, the TLS settings) is [External]; an error built in
    this package with [fmt.Errorf] is [Errorf].  Both carry the text
    their [Error()] method returns. *)
Inductive error :=
  | External (msg : string)
  | Errorf (msg : string).

Definition Error (err : error) : string :=
  match err with
  | External msg => msg
  | Errorf msg => msg
  end.

(** [telegraf.Accumulator], the sink: it is represented by the calls it
    has received, oldest first. *)
Inductive call :=
  | Gauge (measurement : string) (fields : gmap string value) (tags : gmap string string)
  | Err (err : error).

Abbreviation Accumulator := (list call).

Definition AddGauge (measurement : string) (fields : gmap string value)
    (tags : gmap string string) (acc : Accumulator) : Accumulator :=
  acc ++ [Gauge measurement fields tags].

Definition AddError (err : error) (acc : Accumulator) : Accumulator :=
  acc ++ [Err err].

(** [plugins/common/tls]: the settings of the configuration file, the
    current ones ([tls_ca], [tls_cert], [tls_key],
    [insecure_skip_verify]) and the deprecated ones ([ssl_ca],
    [ssl_cert], [ssl_key]), and the opaque [*tls.Config] built from
    them, which may be nil. *)
Module tls.
Record ClientConfig := {
  TLSCA : string;
  TLSCert : string;
  TLSKey : string;
  InsecureSkipVerify : bool;
  SSLCA : string;
  SSLCert : string;
  SSLKey : string
}.
Inductive Config := ConfigHandle (id : N).
End tls.

(** [net/http]: what this package builds and reads. *)
Module http.
Record Request := {
  Method : string;
  URL : string;
  BasicAuth : option (string * string)
}.
Record Response := {
  StatusCode : Z;
  Body : string
}.
Inductive ProxyFunc := ProxyFromEnvironment.
Record Transport := {
  TLSClientConfig : tls.Config;
  Proxy : ProxyFunc
}.
Record Client := {
  ClientTransport : Transport;
  ClientTimeout : Z
}.
Definition StatusOK : Z := 200.
Definition SetBasicAuth (username password : string) (r : Request) : Request :=
  {| Method := Method r; URL := URL r; BasicAuth := Some (username, password) |}.
End http.

(** ** goruntime.go *)

Definition DefaulMeasurement : string := "goruntime_m".

Record GoRuntime := {
  Urls : list string;
  Method : string;
  Measurement : string;
  Username : string;
  Password : string;
  ClientConfig : tls.ClientConfig;
  Timeout : Z;
  client : option http.Client
}.

(** [parse], lines 163-172: the population of the local [fields]. *)
Definition parse_fields (rd : RuntimeData) : option Fields :=
  let fields := Fields_zero in
  let fields := {|
    Fields.Serial := RuntimeData.Serial rd;
    Fields.NumCpu := int64 (RuntimeData.CPUNum rd);
    Fields.NumThread := int64 (RuntimeData.ThreadNum rd);
    Fields.NumGoroutine := int64 (RuntimeData.GoRoutineNum rd);
    Fields.NumCgoCall := Fields.NumCgoCall fields;
    Fields.CpuPercent := int64 (RuntimeData.CpuPercent rd);
    Fields.MemPercent := int64 (RuntimeData.MemPercent rd);
    Fields.Alloc := Fields.Alloc fields;
    Fields.TotalAlloc := Fields.TotalAlloc fields;
    Fields.Sys := Fields.Sys fields;
    Fields.Lookups := Fields.Lookups fields;
    Fields.Mallocs := Fields.Mallocs fields;
    Fields.Frees := Fields.Frees fields;
    Fields.HeapAlloc := Fields.HeapAlloc fields;
    Fields.HeapSys := Fields.HeapSys fields;
    Fields.HeapIdle := Fields.HeapIdle fields;
    Fields.HeapInuse := Fields.HeapInuse fields;
    Fields.HeapReleased := Fields.HeapReleased fields;
    Fields.HeapObjects := Fields.HeapObjects fields;
    Fields.StackInuse := Fields.StackInuse fields;
    Fields.StackSys := Fields.StackSys fields;
    Fields.MSpanInuse := Fields.MSpanInuse fields;
    Fields.MSpanSys := Fields.MSpanSys fields;
    Fields.MCacheInuse := Fields.MCacheInuse fields;
    Fields.MCacheSys := Fields.MCacheSys fields;
    Fields.OtherSys := Fields.OtherSys fields;
    Fields.GCSys := Fields.GCSys fields;
    Fields.NextGC := Fields.NextGC fields;
    Fields.LastGC := Fields.LastGC fields;
    Fields.PauseTotalNs := Fields.PauseTotalNs fields;
    Fields.PauseNs := Fields.PauseNs fields;
    Fields.NumGC := Fields.NumGC fields;
    Fields.GCCPUFraction := Fields.GCCPUFraction fields;
    Fields.Goarch := Fields.Goarch fields;
    Fields.Goos := Fields.Goos fields;
    Fields.Version := Fields.Version fields
  |} in
  let fields := collectMemStats fields (RuntimeData.Memstats rd) in
  collectGCStats fields (RuntimeData.Memstats rd).

(** [parse]: [None] is a panic, otherwise the accumulator after the
    call and the returned error. *)
Definition parse (c : GoRuntime) (rd : RuntimeData) (acc : Accumulator)
    : option (Accumulator * option error) :=
  fields ← parse_fields rd;
  let measurement := Measurement c in
  let measurement :=
    if decide (measurement = ""%string) then DefaulMeasurement else measurement in
  let acc := AddGauge measurement (Values fields) (Tags fields) acc in
  Some (acc, None).

(** The collaborators the plugin calls: [ClientConfig.TLSConfig],
    [http.NewRequest], [Client.Do], [http.StatusText] and the decoding
    of a response body by [encoding/json].  A failing call returns the
    text of its error on the left.  [TLSConfig] has a pointer receiver
    and may rewrite the settings it is called on: it returns the
    settings as it leaves them, then its result. *)
Class Collaborators := {
  TLSConfig : tls.ClientConfig -> tls.ClientConfig * (string + tls.Config);
  NewRequest : string -> string -> string + http.Request;
  Do : http.Client -> http.Request -> string + http.Response;
  StatusText : Z -> string;
  Decode : string -> string + RuntimeData
}.

Section Collector.

Context `{Collaborators}.

(** The error of line 146. *)
Definition status_error (code : Z) : error :=
  Errorf ("Received status code " +:+ pretty code +:+ " (" +:+ StatusText code
          +:+ "), expected " +:+ pretty http.StatusOK +:+ " ("
          +:+ StatusText http.StatusOK +:+ ")").

(** [gatherURL]: [None] is a panic (a nil [c.client], or a panic of
    [parse]). *)
Definition gatherURL (c : GoRuntime) (acc : Accumulator) (url : string)
    : option (Accumulator * option error) :=
  match NewRequest (Method c) url with
  | inl err => Some (acc, Some (External err))
  | inr request =>
    let request :=
      if decide (Username c ≠ ""%string ∨ Password c ≠ ""%string)
      then http.SetBasicAuth (Username c) (Password c) request
      else request in
    cl ← client c;
    match Do cl request with
    | inl err => Some (acc, Some (External err))
    | inr resp =>
      if decide (http.StatusCode resp ≠ http.StatusOK)
      then Some (acc, Some (status_error (http.StatusCode resp)))
      else
        match Decode (http.Body resp) with
        | inl err => Some (acc, Some (External err))
        | inr data => parse c data acc
        end
    end
  end.

(** The error of line 112. *)
Definition url_error (url : string) (err : error) : error :=
  Errorf ("[url=" +:+ url +:+ "]: " +:+ Error err).

(** The body of the goroutine started for [url] (lines 109-114). *)
Definition goroutine (c : GoRuntime) (url : string) (acc : Accumulator)
    : option Accumulator :=
  r ← gatherURL c acc url;
  match r with
  | (acc, Some err) => Some (AddError (url_error url err) acc)
  | (acc, None) => Some acc
  end.

(** The configuration [c] after [c.ClientConfig.TLSConfig()] has left
    the settings [settings] and [c.client] holds [cl]. *)
Definition after_TLSConfig (c : GoRuntime) (settings : tls.ClientConfig)
    (cl : option http.Client) : GoRuntime := {|
  Urls := Urls c;
  Method := Method c;
  Measurement := Measurement c;
  Username := Username c;
  Password := Password c;
  ClientConfig := settings;
  Timeout := Timeout c;
  client := cl
|}.

(** [Gather], lines 92-104: the client is built on first use.  On the
    left, the configuration as the failed call of [TLSConfig] leaves it
    and the error returned; on the right, the configuration the
    goroutines run with. *)
Definition Gather_client (c : GoRuntime) : GoRuntime * error + GoRuntime :=
  match client c with
  | None =>
    match TLSConfig (ClientConfig c) with
    | (settings, inl err) => inl (after_TLSConfig c settings None, External err)
    | (settings, inr tlsCfg) =>
      inr (after_TLSConfig c settings
             (Some {|
                http.ClientTransport := {|
                  http.TLSClientConfig := tlsCfg;
                  http.Proxy := http.ProxyFromEnvironment
                |};
                http.ClientTimeout := Timeout c
              |}))
    end
  | Some _ => inr c
  end.

(** The goroutines of one cycle.  A goroutine touches the accumulator
    once, when its fetch has finished, so a state is the list of the
    urls whose goroutine has not finished yet and the accumulator; a
    step lets any one of them finish. *)
Inductive finish (c : GoRuntime)
    : list string * Accumulator -> list string * Accumulator -> Prop :=
  | finish_one running url running' acc acc' :
      goroutine c url acc = Some acc' ->
      finish c (running ++ url :: running', acc) (running ++ running', acc').

(** [Gather]: the configuration and the accumulator after the call,
    and the returned error.  [wg.Wait()] returns when no goroutine is
    left running. *)
Inductive Gather (c : GoRuntime) (acc : Accumulator)
    : GoRuntime -> Accumulator -> option error -> Prop :=
  | Gather_err c' err :
      Gather_client c = inl (c', err) ->
      Gather c acc c' acc (Some err)
  | Gather_nil c' acc' :
      Gather_client c = inr c' ->
      rtc (finish c') (Urls c', acc) ([], acc') ->
      Gather c acc c' acc' None.

(** The run of [Gather] in which the goroutines finish in the order
    they were started; [None] is a panic. *)
Fixpoint finish_in_order (c : GoRuntime) (urls : list string) (acc : Accumulator)
    : option Accumulator :=
  match urls with
  | [] => Some acc
  | url :: urls => acc ← goroutine c url acc; finish_in_order c urls acc
  end.

Definition Gather_in_order (c : GoRuntime) (acc : Accumulator)
    : option (GoRuntime * Accumulator * option error) :=
  match Gather_client c with
  | inl (c', err) => Some (c', acc, Some err)
  | inr c' => acc' ← finish_in_order c' (Urls c') acc; Some (c', acc', None)
  end.

End Collector.

(** ** Values of the Go types *)

(** The values a [runtime.MemStats] can hold: every counter is a
    [uint64], [NumGC] is a [uint32], [PauseNs] has 256 entries. *)
Definition wf_MemStats (m : runtime.MemStats) : Prop :=
  Forall is_uint64 [
    runtime.Alloc m; runtime.TotalAlloc m; runtime.Sys m; runtime.Lookups m;
    runtime.Mallocs m; runtime.Frees m;
    runtime.HeapAlloc m; runtime.HeapSys m; runtime.HeapIdle m;
    runtime.HeapInuse m; runtime.HeapReleased m; runtime.HeapObjects m;
    runtime.StackInuse m; runtime.StackSys m; runtime.MSpanInuse m;
    runtime.MSpanSys m; runtime.MCacheInuse m; runtime.MCacheSys m;
    runtime.GCSys m; runtime.OtherSys m; runtime.NextGC m; runtime.LastGC m;
    runtime.PauseTotalNs m ] ∧
  is_uint32 (runtime.NumGC m) ∧
  length (runtime.PauseNs m) = 256%nat ∧
  Forall is_uint64 (runtime.PauseNs m).

(** The values a [RuntimeData] can hold. *)
Definition wf_RuntimeData (rd : RuntimeData) : Prop :=
  Forall is_int [
    RuntimeData.CPUNum rd; RuntimeData.ThreadNum rd; RuntimeData.GoRoutineNum rd;
    RuntimeData.CpuPercent rd; RuntimeData.MemPercent rd ] ∧
  wf_MemStats (RuntimeData.Memstats rd).

(** ** The Transform of one snapshot *)

(** The field mapping and the tag mapping [parse] hands to the
    accumulator. *)
Definition Transform (rd : RuntimeData)
    : option (gmap string value * gmap string string) :=
  fields ← parse_fields rd;
  Some (Values fields, Tags fields).

(** The keys of the literal of [Values]. *)
Definition output_keys : gset string :=
  list_to_set [
    "cpu.count"; "cpu.goroutines"; "cpu.cgo_calls"; "cpu.thread";
    "cpu.percent"; "mem.percent";
    "mem.alloc"; "mem.total"; "mem.sys"; "mem.lookups"; "mem.malloc"; "mem.frees";
    "mem.heap.alloc"; "mem.heap.sys"; "mem.heap.idle"; "mem.heap.inuse";
    "mem.heap.released"; "mem.heap.objects";
    "mem.stack.inuse"; "mem.stack.sys"; "mem.stack.mspan_inuse";
    "mem.stack.mspan_sys"; "mem.stack.mcache_inuse"; "mem.stack.mcache_sys";
    "mem.othersys";
    "mem.gc.sys"; "mem.gc.next"; "mem.gc.last"; "mem.gc.pause_total";
    "mem.gc.pause"; "mem.gc.count"; "mem.gc.cpu_fraction"
  ]%string.

(** The key set the specification documents (section 4.1), under the
    names the code gives these keys: [cpu.*] (count, thread count,
    concurrent-task count, percent), [mem.*] (alloc, total, sys, lookups,
    malloc count, free count), [mem.heap.*] (alloc, sys, idle, inuse,
    released, object count), [mem.stack.*] (inuse, sys, span and cache
    inuse and sys), [mem.othersys], and [mem.gc.*] (sys, next-GC
    threshold, last-GC timestamp, cumulative pause total, most-recent
    pause, GC count, GC CPU fraction). *)
Definition documented_keys : gset string :=
  list_to_set [
    "cpu.count"; "cpu.thread"; "cpu.goroutines"; "cpu.percent";
    "mem.alloc"; "mem.total"; "mem.sys"; "mem.lookups"; "mem.malloc"; "mem.frees";
    "mem.heap.alloc"; "mem.heap.sys"; "mem.heap.idle"; "mem.heap.inuse";
    "mem.heap.released"; "mem.heap.objects";
    "mem.stack.inuse"; "mem.stack.sys"; "mem.stack.mspan_inuse";
    "mem.stack.mspan_sys"; "mem.stack.mcache_inuse"; "mem.stack.mcache_sys";
    "mem.othersys";
    "mem.gc.sys"; "mem.gc.next"; "mem.gc.last"; "mem.gc.pause_total";
    "mem.gc.pause"; "mem.gc.count"; "mem.gc.cpu_fraction"
  ]%string.

(** The scalar fields copied from the snapshot, each with the key it is
    emitted under. *)
Definition int_sources : list (string * (RuntimeData -> Z)) := [
  ("cpu.count"%string, RuntimeData.CPUNum);
  ("cpu.goroutines"%string, RuntimeData.GoRoutineNum);
  ("cpu.thread"%string, RuntimeData.ThreadNum);
  ("cpu.percent"%string, RuntimeData.CpuPercent);
  ("mem.percent"%string, RuntimeData.MemPercent)
].

Definition uint64_sources : list (string * (runtime.MemStats -> Z)) := [
  ("mem.alloc"%string, runtime.Alloc);
  ("mem.total"%string, runtime.TotalAlloc);
  ("mem.sys"%string, runtime.Sys);
  ("mem.lookups"%string, runtime.Lookups);
  ("mem.malloc"%string, runtime.Mallocs);
  ("mem.frees"%string, runtime.Frees);
  ("mem.heap.alloc"%string, runtime.HeapAlloc);
  ("mem.heap.sys"%string, runtime.HeapSys);
  ("mem.heap.idle"%string, runtime.HeapIdle);
  ("mem.heap.inuse"%string, runtime.HeapInuse);
  ("mem.heap.released"%string, runtime.HeapReleased);
  ("mem.heap.objects"%string, runtime.HeapObjects);
  ("mem.stack.inuse"%string, runtime.StackInuse);
  ("mem.stack.sys"%string, runtime.StackSys);
  ("mem.stack.mspan_inuse"%string, runtime.MSpanInuse);
  ("mem.stack.mspan_sys"%string, runtime.MSpanSys);
  ("mem.stack.mcache_inuse"%string, runtime.MCacheInuse);
  ("mem.stack.mcache_sys"%string, runtime.MCacheSys);
  ("mem.othersys"%string, runtime.OtherSys);
  ("mem.gc.sys"%string, runtime.GCSys);
  ("mem.gc.next"%string, runtime.NextGC);
  ("mem.gc.last"%string, runtime.LastGC);
  ("mem.gc.pause_total"%string, runtime.PauseTotalNs)
].

Definition uint32_sources : list (string * (runtime.MemStats -> Z)) := [
  ("mem.gc.count"%string, runtime.NumGC)
].

Definition scalar_sources : list (string * (RuntimeData -> Z)) :=
  int_sources ++
  map (λ '(key, src), (key, λ rd, src (RuntimeData.Memstats rd)))
      (uint64_sources ++ uint32_sources).

(** ** Sample values *)

Definition MemStats_zero : runtime.MemStats :=
  runtime.Build_MemStats 0 0 0 0 0 0 0 0 0 0 0 0 0 0 0 0 0 0 0 0 0 0 0
    (replicate 256 0) 0 (S754_zero false).

(** A snapshot of a process that has run five collections. *)
Definition sample_MemStats : runtime.MemStats :=
  runtime.Build_MemStats 1048576 2097152 4194304 7 100 60
    524288 2097152 1048576 1048576 0 4294967295
    65536 65536 4096 16384 2048 16384 131072 8192 4194304 1700000000000000000
    15000
    (<[4%nat := 4321]> (<[3%nat := 1234]> (replicate 256 0))) 5
    (S754_finite false 1 (-10)).

Definition sample_RuntimeData : RuntimeData :=
  RuntimeData.Build_RuntimeData "node-7" 8 12 40 35 60 sample_MemStats.

(** A snapshot whose [Alloc] is the largest [uint64]. *)
Definition wrapping_RuntimeData : RuntimeData :=
  RuntimeData.Build_RuntimeData "" 1 1 1 0 0
    (runtime.Build_MemStats (2 ^ 64 - 1) 0 0 0 0 0 0 0 0 0 0 0 0 0 0 0 0 0 0 0 0 0 0
       (<[255%nat := 2 ^ 63]> (replicate 256 0)) 0 (S754_zero false)).

(** The configuration built by the constructor registered in [init]. *)
Definition default_GoRuntime : GoRuntime := {|
  Urls := [];
  Method := "GET";
  Measurement := "";
  Username := "";
  Password := "";
  ClientConfig := tls.Build_ClientConfig "" "" "" false "" "" "";
  Timeout := 5 * 1000000000;
  client := None
|}.

(** The configuration of [init] with a measurement name. *)
Definition named_GoRuntime (name : string) : GoRuntime := {|
  Urls := Urls default_GoRuntime;
  Method := Method default_GoRuntime;
  Measurement := name;
  Username := Username default_GoRuntime;
  Password := Password default_GoRuntime;
  ClientConfig := ClientConfig default_GoRuntime;
  Timeout := Timeout default_GoRuntime;
  client := client default_GoRuntime
|}.

(** ** The poll cycle: notions of the properties *)

(** A 2xx success status. *)
Definition is_2xx (code : Z) : Prop := 200 <= code < 300.

(** What the goroutine of [url] hands to an accumulator that has
    received nothing yet. *)
Definition report `{Collaborators} (c : GoRuntime) (url : string) : list call :=
  default [] (goroutine c url []).


(** ** A sample deployment *)

(** The settings after the deprecated names have been taken over where
    the current ones are empty, as [TLSConfig] does before it builds
    anything. *)
Definition take_over_deprecated (cfg : tls.ClientConfig) : tls.ClientConfig := {|
  tls.TLSCA :=
    if String.eqb (tls.TLSCA cfg) "" then tls.SSLCA cfg else tls.TLSCA cfg;
  tls.TLSCert :=
    if String.eqb (tls.TLSCert cfg) "" then tls.SSLCert cfg else tls.TLSCert cfg;
  tls.TLSKey :=
    if String.eqb (tls.TLSKey cfg) "" then tls.SSLKey cfg else tls.TLSKey cfg;
  tls.InsecureSkipVerify := tls.InsecureSkipVerify cfg;
  tls.SSLCA := tls.SSLCA cfg;
  tls.SSLCert := tls.SSLCert cfg;
  tls.SSLKey := tls.SSLKey cfg
|}.

(** Four endpoints: [a] and [c] answer 200 with a snapshot, [b] answers
    500, [d] answers 201 with the snapshot of [a]; any other address
    refuses the connection.  The TLS settings take over the deprecated
    names, and fail to load when they then name a CA file. *)
Definition sample_server : Collaborators := {|
  TLSConfig cfg :=
    let settings := take_over_deprecated cfg in
    (settings,
     if String.eqb (tls.TLSCA settings) ""
     then inr (tls.ConfigHandle 0)
     else inl ("could not load certificate authority " +:+ tls.TLSCA settings));
  NewRequest method url :=
    inr {| http.Method := method; http.URL := url; http.BasicAuth := None |};
  Do cl request :=
    if String.eqb (http.URL request) "http://a:8062/debug/vars"
    then inr {| http.StatusCode := 200; http.Body := "snapshot-a" |}
    else if String.eqb (http.URL request) "http://b:8062/debug/vars"
    then inr {| http.StatusCode := 500; http.Body := "" |}
    else if String.eqb (http.URL request) "http://c:8062/debug/vars"
    then inr {| http.StatusCode := 200; http.Body := "snapshot-c" |}
    else if String.eqb (http.URL request) "http://d:8062/debug/vars"
    then inr {| http.StatusCode := 201; http.Body := "snapshot-a" |}
    else inl "dial tcp: connection refused";
  StatusText code :=
    if code =? 200 then "OK"
    else if code =? 201 then "Created"
    else if code =? 500 then "Internal Server Error"
    else "";
  Decode body :=
    if String.eqb body "snapshot-a" then inr sample_RuntimeData
    else if String.eqb body "snapshot-c" then inr wrapping_RuntimeData
    else inl "unexpected end of JSON input"
|}.

Definition sample_Client : http.Client := {|
  http.ClientTransport := {|
    http.TLSClientConfig := tls.ConfigHandle 0;
    http.Proxy := http.ProxyFromEnvironment
  |};
  http.ClientTimeout := 5 * 1000000000
|}.

(** A configuration polling [urls], with the CA file [ca] and the
    client [cl]. *)
Definition polling_GoRuntime (urls : list string) (ca : string)
    (cl : option http.Client) : GoRuntime := {|
  Urls := urls;
  Method := "GET";
  Measurement := "";
  Username := "";
  Password := "";
  ClientConfig := tls.Build_ClientConfig ca "" "" false "" "" "";
  Timeout := 5 * 1000000000;
  client := cl
|}.

(** ** Notions of the further properties *)

(** The statistics [m] with the pause history replaced by [buf]. *)
Definition with_PauseNs (m : runtime.MemStats) (buf : list Z) : runtime.MemStats := {|
  runtime.Alloc := runtime.Alloc m;
  runtime.TotalAlloc := runtime.TotalAlloc m;
  runtime.Sys := runtime.Sys m;
  runtime.Lookups := runtime.Lookups m;
  runtime.Mallocs := runtime.Mallocs m;
  runtime.Frees := runtime.Frees m;
  runtime.HeapAlloc := runtime.HeapAlloc m;
  runtime.HeapSys := runtime.HeapSys m;
  runtime.HeapIdle := runtime.HeapIdle m;
  runtime.HeapInuse := runtime.HeapInuse m;
  runtime.HeapReleased := runtime.HeapReleased m;
  runtime.HeapObjects := runtime.HeapObjects m;
  runtime.StackInuse := runtime.StackInuse m;
  runtime.StackSys := runtime.StackSys m;
  runtime.MSpanInuse := runtime.MSpanInuse m;
  runtime.MSpanSys := runtime.MSpanSys m;
  runtime.MCacheInuse := runtime.MCacheInuse m;
  runtime.MCacheSys := runtime.MCacheSys m;
  runtime.GCSys := runtime.GCSys m;
  runtime.OtherSys := runtime.OtherSys m;
  runtime.NextGC := runtime.NextGC m;
  runtime.LastGC := runtime.LastGC m;
  runtime.PauseTotalNs := runtime.PauseTotalNs m;
  runtime.PauseNs := buf;
  runtime.NumGC := runtime.NumGC m;
  runtime.GCCPUFraction := runtime.GCCPUFraction m
|}.

(** The name [parse] emits under in the configuration [c]. *)
Definition emitted_name (c : GoRuntime) : string :=
  if decide (Measurement c = ""%string) then DefaulMeasurement else Measurement c.

(** A configuration polling [urls] whose CA file is given under the
    deprecated name [ssl_ca], with no client built yet. *)
Definition deprecated_GoRuntime (urls : list string) (ca : string) : GoRuntime := {|
  Urls := urls;
  Method := "GET";
  Measurement := "";
  Username := "";
  Password := "";
  ClientConfig := tls.Build_ClientConfig "" "" "" false ca "" "";
  Timeout := 5 * 1000000000;
  client := None
|}.

(** The three endpoints polled in the examples. *)
Definition sample_urls : list string :=
  ["http://a:8062/debug/vars"; "http://b:8062/debug/vars";
   "http://c:8062/debug/vars"]%string.

(** ** Conversions *)

Lemma int64_id (x : Z) : is_int64 x -> int64 x = x.
Proof.
  unfold is_int64, int64. intros Hx.
  rewrite Z.mod_small by lia. lia.
Qed.

Lemma int64_wraps (x : Z) : 2 ^ 63 <= x < 2 ^ 64 -> int64 x = x - 2 ^ 64.
Proof.
  unfold int64. intros Hx.
  replace (x + 2 ^ 63) with (x - 2 ^ 63 + 1 * 2 ^ 64) by lia.
  rewrite Z.mod_add by lia. rewrite Z.mod_small by lia. lia.
Qed.

Lemma int64_range (x : Z) : is_int64 (int64 x).
Proof.
  unfold is_int64, int64.
  pose proof (Z.mod_pos_bound (x + 2 ^ 63) (2 ^ 64)). lia.
Qed.

(** [int64] keeps the 64-bit word of a [uint64]. *)
Lemma int64_word (x : Z) : is_uint64 x -> int64 x mod 2 ^ 64 = x.
Proof.
  unfold is_uint64. intros Hx.
  destruct (Z.lt_ge_cases x (2 ^ 63)) as [Hlt | Hge].
  - rewrite int64_id by (unfold is_int64; lia). apply Z.mod_small. lia.
  - rewrite int64_wraps by lia.
    replace (x - 2 ^ 64) with (x + (- 1) * 2 ^ 64) by lia.
    rewrite Z.mod_add by lia. apply Z.mod_small. lia.
Qed.

(** The wrap-around of the [uint32] addition does not show in the index:
    256 divides [2^32]. *)
Lemma pause_index (k : Z) : uint32_add k 255 mod 256 = (k + 255) mod 256.
Proof.
  unfold uint32_add. apply Z.mod_mod_divide.
  exists (2 ^ 24). reflexivity.
Qed.

Lemma pause_index_bound (k : Z) : (Z.to_nat ((k + 255) mod 256) < 256)%nat.
Proof.
  pose proof (Z.mod_pos_bound (k + 255) 256). lia.
Qed.

(** ** Well-formed snapshots never panic *)

Lemma wf_pause_slot (m : runtime.MemStats) :
  wf_MemStats m ->
  ∃ pause,
    runtime.PauseNs m !! Z.to_nat ((runtime.NumGC m + 255) mod 256) = Some pause
    ∧ is_uint64 pause.
Proof.
  intros (_ & _ & Hlen & Hall).
  destruct (lookup_lt_is_Some_2 (runtime.PauseNs m)
              (Z.to_nat ((runtime.NumGC m + 255) mod 256))) as [pause Hp].
  { rewrite Hlen. apply pause_index_bound. }
  exists pause. split; [exact Hp |].
  rewrite Forall_lookup in Hall. exact (Hall _ _ Hp).
Qed.

Lemma wf_uint64_source (m : runtime.MemStats) (key : string)
    (src : runtime.MemStats -> Z) :
  wf_MemStats m -> (key, src) ∈ uint64_sources -> is_uint64 (src m).
Proof.
  intros (Hall & _) Hin.
  repeat (apply Forall_cons in Hall as [? Hall]).
  unfold uint64_sources in Hin.
  repeat (apply elem_of_cons in Hin as [Hin | Hin];
          [ injection Hin as -> ->; assumption | ]).
  apply elem_of_nil in Hin. destruct Hin.
Qed.

Lemma collectGCStats_slot (fields : Fields) (m : runtime.MemStats) (pause : Z) :
  runtime.PauseNs m !! Z.to_nat ((runtime.NumGC m + 255) mod 256) = Some pause ->
  ∃ fields',
    collectGCStats fields m = Some fields'
    ∧ Fields.PauseNs fields' = int64 pause.
Proof.
  intros Hp. unfold collectGCStats.
  rewrite pause_index, Hp. simpl. eexists. split; reflexivity.
Qed.

(** Unfolds the Transform of a snapshot whose most recent pause is known
    to sit in the slot named by [Hp]. *)
Ltac run_Transform Hp :=
  unfold Transform, parse_fields, collectGCStats;
  rewrite pause_index, Hp; cbn [mbind option_bind].

Lemma Transform_total (rd : RuntimeData) :
  wf_RuntimeData rd -> is_Some (Transform rd).
Proof.
  intros [_ Hm]. destruct (wf_pause_slot _ Hm) as (pause & Hp & _).
  run_Transform Hp. eexists. reflexivity.
Qed.

(** [parse] emits the Transform of the snapshot, once, under the
    configured name or the default one. *)
Lemma parse_Transform (c : GoRuntime) (rd : RuntimeData) (acc : Accumulator) :
  parse c rd acc =
    match Transform rd with
    | Some (F, T) =>
        Some (acc ++ [Gauge (if decide (Measurement c = ""%string)
                             then DefaulMeasurement else Measurement c) F T], None)
    | None => None
    end.
Proof.
  unfold parse, Transform. destruct (parse_fields rd); reflexivity.
Qed.

Lemma documented_keys_output : documented_keys ⊆ output_keys.
Proof. apply (bool_decide_unpack _). vm_compute. reflexivity. Qed.

Lemma Values_dom (f : Fields) : dom (Values f) = output_keys.
Proof. unfold Values, output_keys. rewrite dom_list_to_map_L. reflexivity. Qed.

(** Well-formedness of a closed snapshot, conjunct by conjunct. *)
Ltac solve_wf :=
  split; [| split; [| split; [| split]]];
  [ repeat (apply Forall_cons; split; [unfold is_int; simpl; lia |]); apply Forall_nil_2
  | repeat (apply Forall_cons; split; [unfold is_uint64; simpl; lia |]); apply Forall_nil_2
  | unfold is_uint32; simpl; lia
  | reflexivity
  | simpl runtime.PauseNs;
    repeat (apply Forall_cons; split; [unfold is_uint64; lia |]); apply Forall_nil_2 ].

Lemma wf_sample : wf_RuntimeData sample_RuntimeData.
Proof.
  solve_wf.
Defined.

Lemma wf_wrapping : wf_RuntimeData wrapping_RuntimeData.
Proof.
  solve_wf.
Defined.

(** ** The most recent pause *)

(** C1, as the code has it.  For every snapshot with GC count [k], the
    value the Transform reports under [mem.gc.pause] is the one stored
    at position [(k + 255) mod 256] of the 256-entry [PauseNs] array,
    converted to [int64]: that slot always exists, the reported number
    has the 64-bit word of the stored one, it is the stored number
    itself below [2^63] and the stored number minus [2^64] from there
    on.  For [k = 5] the position is 4; for [k = 0] it is 255, and a
    buffer of zeros is reported as 0. *)
Theorem most_recent_pause (rd : RuntimeData) :
  wf_RuntimeData rd ->
  let m := RuntimeData.Memstats rd in
  let k := runtime.NumGC m in
  ∃ pause F T,
    runtime.PauseNs m !! Z.to_nat ((k + 255) mod 256) = Some pause
    ∧ Transform rd = Some (F, T)
    ∧ F !! "mem.gc.pause"%string = Some (VInt (int64 pause))
    ∧ int64 pause mod 2 ^ 64 = pause
    ∧ (pause < 2 ^ 63 -> int64 pause = pause)
    ∧ (2 ^ 63 <= pause -> int64 pause = pause - 2 ^ 64)
    ∧ (k = 5 -> (k + 255) mod 256 = 4)
    ∧ (k = 0 -> (k + 255) mod 256 = 255)
    ∧ (runtime.PauseNs m = replicate 256 0 ->
       F !! "mem.gc.pause"%string = Some (VInt 0)).
Proof.
  intros Hwf. cbv zeta. destruct Hwf as [_ Hm].
  destruct (wf_pause_slot _ Hm) as (pause & Hp & Hrange).
  exists pause. do 2 eexists.
  split; [exact Hp |].
  split; [run_Transform Hp; reflexivity |].
  split; [reflexivity |].
  split; [apply int64_word; exact Hrange |].
  unfold is_uint64 in Hrange.
  split; [intros Hlt; apply int64_id; unfold is_int64; lia |].
  split; [intros Hge; apply int64_wraps; lia |].
  split; [intros ->; reflexivity |].
  split; [intros ->; reflexivity |].
  intros Hfresh. rewrite Hfresh in Hp.
  apply lookup_replicate in Hp as [-> _]. reflexivity.
Qed.

(** At the sample snapshot (five collections) the pause reported is the
    one of slot 4. *)
Lemma most_recent_pause_witness :
  wf_RuntimeData sample_RuntimeData
  ∧ ∃ pause F T,
      runtime.PauseNs sample_MemStats !! 4%nat = Some pause
      ∧ Transform sample_RuntimeData = Some (F, T)
      ∧ F !! "mem.gc.pause"%string = Some (VInt 4321).
Proof.
  split; [exact wf_sample |].
  destruct (most_recent_pause sample_RuntimeData wf_sample)
    as (pause & F & T & Hp & HT & HF & _ & Hid & _).
  exists pause, F, T. split; [exact Hp |]. split; [exact HT |].
  change (Z.to_nat _) with 4%nat in Hp.
  assert (pause = 4321) as Hv by (vm_compute in Hp; congruence).
  rewrite HF, Hid by lia. congruence.
Defined.

(** C1, as the claim has it, fails: with no collection run yet and
    [2^63] stored in slot 255, the value reported is [- 2^63], not the
    stored one. *)
Lemma pause_beyond_int64_differs :
  wf_RuntimeData wrapping_RuntimeData
  ∧ runtime.NumGC (RuntimeData.Memstats wrapping_RuntimeData) = 0
  ∧ runtime.PauseNs (RuntimeData.Memstats wrapping_RuntimeData)
      !! Z.to_nat ((0 + 255) mod 256) = Some (2 ^ 63)
  ∧ ∃ F T,
      Transform wrapping_RuntimeData = Some (F, T)
      ∧ F !! "mem.gc.pause"%string = Some (VInt (- 2 ^ 63))
      ∧ F !! "mem.gc.pause"%string ≠ Some (VInt (2 ^ 63)).
Proof.
  assert (runtime.PauseNs (RuntimeData.Memstats wrapping_RuntimeData)
            !! Z.to_nat ((runtime.NumGC (RuntimeData.Memstats wrapping_RuntimeData)
                          + 255) mod 256) = Some (2 ^ 63)) as Hp by reflexivity.
  split; [exact wf_wrapping |]. split; [reflexivity |]. split; [exact Hp |].
  do 2 eexists. split; [run_Transform Hp; reflexivity |].
  split; [vm_compute; reflexivity | vm_compute; discriminate].
Qed.

(** A snapshot decoded from a process that has not collected yet: the
    pause reported is the zero of slot 255. *)
Example fresh_buffer_pause :
  match Transform (RuntimeData.Build_RuntimeData "fresh" 1 1 1 0 0 MemStats_zero) with
  | Some (F, _) => F !! "mem.gc.pause"%string = Some (VInt 0)
  | None => False
  end.
Proof. vm_compute. reflexivity. Qed.

(** ** The key set *)

(** C2.  Whatever the snapshot holds, the field mapping of the Transform
    has one and the same key set, the keys of the literal of [Values],
    and every documented key is among them. *)
Theorem output_key_set_fixed (rd rd' : RuntimeData) :
  wf_RuntimeData rd ->
  wf_RuntimeData rd' ->
  ∃ F T F' T',
    Transform rd = Some (F, T)
    ∧ Transform rd' = Some (F', T')
    ∧ dom F = dom F'
    ∧ dom F = output_keys
    ∧ documented_keys ⊆ dom F.
Proof.
  intros [_ Hm] [_ Hm'].
  destruct (wf_pause_slot _ Hm) as (pause & Hp & _).
  destruct (wf_pause_slot _ Hm') as (pause' & Hp' & _).
  do 4 eexists.
  split; [run_Transform Hp; reflexivity |].
  split; [run_Transform Hp'; reflexivity |].
  rewrite !Values_dom.
  split; [reflexivity |]. split; [reflexivity |].
  exact documented_keys_output.
Qed.

Lemma output_key_set_fixed_witness :
  ∃ F T F' T',
    Transform sample_RuntimeData = Some (F, T)
    ∧ Transform wrapping_RuntimeData = Some (F', T')
    ∧ dom F = dom F'
    ∧ dom F = output_keys
    ∧ documented_keys ⊆ dom F.
Proof.
  exact (output_key_set_fixed sample_RuntimeData wrapping_RuntimeData
           wf_sample wf_wrapping).
Defined.

(** ** The tag *)

(** C6.  The tag mapping of the Transform is the single tag [serial]
    with the serial of the snapshot as it came, the empty string
    included. *)
Theorem serial_tag_verbatim (rd : RuntimeData) :
  wf_RuntimeData rd ->
  ∃ F T,
    Transform rd = Some (F, T)
    ∧ T = {[ "serial"%string := RuntimeData.Serial rd ]}
    ∧ dom T = {[ "serial"%string ]}
    ∧ T !! "serial"%string = Some (RuntimeData.Serial rd)
    ∧ (RuntimeData.Serial rd = ""%string -> T !! "serial"%string = Some ""%string).
Proof.
  intros [_ Hm]. destruct (wf_pause_slot _ Hm) as (pause & Hp & _).
  do 2 eexists.
  split; [run_Transform Hp; reflexivity |].
  unfold Tags. cbn [Fields.Serial collectMemStats].
  split; [reflexivity |].
  split; [apply dom_singleton_L |].
  split; [apply lookup_singleton_eq |].
  intros ->. apply lookup_singleton_eq.
Qed.

Lemma serial_tag_verbatim_witness :
  ∃ F T,
    Transform sample_RuntimeData = Some (F, T)
    ∧ T = {[ "serial"%string := "node-7"%string ]}.
Proof.
  destruct (serial_tag_verbatim sample_RuntimeData wf_sample)
    as (F & T & HT & Heq & _).
  exists F, T. split; [exact HT | exact Heq].
Defined.

(** ** Widening *)

(** C7.  Every scalar field of the snapshot whose value fits in 32 bits,
    signed or unsigned, is emitted under its key with that same value.
    [HeapObjects = 4294967295] comes out as [4294967295]. *)
Theorem widening_lossless (rd : RuntimeData) (key : string) (src : RuntimeData -> Z) :
  wf_RuntimeData rd ->
  (key, src) ∈ scalar_sources ->
  - 2 ^ 31 <= src rd < 2 ^ 32 ->
  ∃ F T,
    Transform rd = Some (F, T)
    ∧ F !! key = Some (VInt (src rd)).
Proof.
  intros [_ Hm] Hin Hfit. destruct (wf_pause_slot _ Hm) as (pause & Hp & _).
  do 2 eexists.
  split; [run_Transform Hp; reflexivity |].
  assert (int64 (src rd) = src rd) as Hid
    by (apply int64_id; unfold is_int64; lia).
  rewrite <- Hid. clear Hid Hfit.
  unfold scalar_sources, int_sources, uint64_sources, uint32_sources in Hin.
  cbn [app map] in Hin.
  repeat (apply elem_of_cons in Hin as [Hin | Hin];
          [ injection Hin as -> ->; reflexivity | ]).
  apply elem_of_nil in Hin. destruct Hin.
Qed.

Lemma widening_lossless_witness :
  ∃ F T,
    Transform sample_RuntimeData = Some (F, T)
    ∧ F !! "mem.heap.objects"%string = Some (VInt 4294967295).
Proof.
  refine (widening_lossless sample_RuntimeData "mem.heap.objects"
            (λ rd, runtime.HeapObjects (RuntimeData.Memstats rd)) wf_sample _ _).
  - unfold scalar_sources, int_sources, uint64_sources, uint32_sources.
    cbn [app map]. do 16 apply list_elem_of_further. apply list_elem_of_here.
  - simpl. lia.
Defined.

(** ** The field nobody sets *)

(** C9.  Every record carries the key [cpu.cgo_calls], which is not a
    documented key, with the value 0: [NumCgoCall] starts at zero in
    [Fields{}] and neither collection step writes it. *)
Theorem cgo_calls_always_zero (rd : RuntimeData) :
  wf_RuntimeData rd ->
  ∃ F T,
    Transform rd = Some (F, T)
    ∧ F !! "cpu.cgo_calls"%string = Some (VInt 0)
    ∧ ("cpu.cgo_calls"%string ∉ documented_keys)
    ∧ (∀ fields m,
         Fields.NumCgoCall (collectMemStats fields m) = Fields.NumCgoCall fields)
    ∧ (∀ fields m fields',
         collectGCStats fields m = Some fields' ->
         Fields.NumCgoCall fields' = Fields.NumCgoCall fields).
Proof.
  intros [_ Hm]. destruct (wf_pause_slot _ Hm) as (pause & Hp & _).
  do 2 eexists.
  split; [run_Transform Hp; reflexivity |].
  split; [reflexivity |].
  split; [apply (bool_decide_unpack _); vm_compute; reflexivity |].
  split; [reflexivity |].
  intros fields m fields'. unfold collectGCStats.
  destruct (runtime.PauseNs m !! _); [| discriminate].
  cbn [mbind option_bind]. intros [= <-]. reflexivity.
Qed.

Lemma cgo_calls_always_zero_witness :
  ∃ F T,
    Transform sample_RuntimeData = Some (F, T)
    ∧ F !! "cpu.cgo_calls"%string = Some (VInt 0).
Proof.
  destruct (cgo_calls_always_zero sample_RuntimeData wf_sample)
    as (F & T & HT & HF & _).
  exists F, T. split; [exact HT | exact HF].
Defined.

(** ** Counters beyond the signed range *)

(** C10.  The conversion of a [uint64] counter to [int64] wraps: a
    counter of at least [2^63] is emitted as the counter minus [2^64], a
    negative number different from the counter.  The snapshot with
    [Alloc = 2^64 - 1] is emitted with [mem.alloc = -1]; the same holds
    for the pause read from [PauseNs]. *)
Theorem uint64_conversion_wraps :
  (∃ rd F T,
     wf_RuntimeData rd
     ∧ runtime.Alloc (RuntimeData.Memstats rd) = 2 ^ 64 - 1
     ∧ Transform rd = Some (F, T)
     ∧ F !! "mem.alloc"%string = Some (VInt (- 1)))
  ∧ (∀ rd key src,
       wf_RuntimeData rd ->
       (key, src) ∈ uint64_sources ->
       2 ^ 63 <= src (RuntimeData.Memstats rd) ->
       ∃ F T v,
         Transform rd = Some (F, T)
         ∧ F !! key = Some (VInt v)
         ∧ v = src (RuntimeData.Memstats rd) - 2 ^ 64
         ∧ v < 0
         ∧ v ≠ src (RuntimeData.Memstats rd))
  ∧ (∀ rd pause,
       wf_RuntimeData rd ->
       runtime.PauseNs (RuntimeData.Memstats rd)
         !! Z.to_nat ((runtime.NumGC (RuntimeData.Memstats rd) + 255) mod 256)
         = Some pause ->
       2 ^ 63 <= pause ->
       ∃ F T,
         Transform rd = Some (F, T)
         ∧ F !! "mem.gc.pause"%string = Some (VInt (pause - 2 ^ 64))
         ∧ pause - 2 ^ 64 < 0).
Proof.
  assert (∀ rd key src,
            wf_RuntimeData rd ->
            (key, src) ∈ uint64_sources ->
            2 ^ 63 <= src (RuntimeData.Memstats rd) ->
            ∃ F T v,
              Transform rd = Some (F, T)
              ∧ F !! key = Some (VInt v)
              ∧ v = src (RuntimeData.Memstats rd) - 2 ^ 64
              ∧ v < 0
              ∧ v ≠ src (RuntimeData.Memstats rd)) as Hcounters.
  { intros rd key src [_ Hm] Hin Hbig.
    destruct (wf_pause_slot _ Hm) as (pause & Hp & _).
    pose proof (wf_uint64_source _ _ _ Hm Hin) as Hrange.
    unfold is_uint64 in Hrange.
    do 2 eexists. exists (src (RuntimeData.Memstats rd) - 2 ^ 64).
    split; [run_Transform Hp; reflexivity |].
    split; [| lia].
    rewrite <- int64_wraps by lia.
    unfold uint64_sources in Hin.
    repeat (apply elem_of_cons in Hin as [Hin | Hin];
            [ injection Hin as -> ->; reflexivity | ]).
    apply elem_of_nil in Hin. destruct Hin. }
  split; [| split].
  - destruct (Hcounters wrapping_RuntimeData "mem.alloc"%string runtime.Alloc)
      as (F & T & v & HT & HF & Hv & _).
    { exact wf_wrapping. }
    { apply list_elem_of_here. }
    { simpl. lia. }
    exists wrapping_RuntimeData, F, T.
    split; [exact wf_wrapping |]. split; [reflexivity |].
    split; [exact HT |]. rewrite HF, Hv. reflexivity.
  - exact Hcounters.
  - intros rd pause [_ Hm] Hp Hbig.
    assert (is_uint64 pause) as Hrange.
    { destruct Hm as (_ & _ & _ & Hall). rewrite Forall_lookup in Hall.
      exact (Hall _ _ Hp). }
    unfold is_uint64 in Hrange.
    do 2 eexists. split; [run_Transform Hp; reflexivity |].
    rewrite <- int64_wraps by lia. split; [reflexivity |].
    rewrite int64_wraps by lia. lia.
Qed.

Lemma uint64_conversion_wraps_witness :
  ∃ F T v,
    Transform wrapping_RuntimeData = Some (F, T)
    ∧ F !! "mem.alloc"%string = Some (VInt v)
    ∧ v = - 1.
Proof.
  destruct (proj1 (proj2 uint64_conversion_wraps) wrapping_RuntimeData
              "mem.alloc"%string runtime.Alloc wf_wrapping)
    as (F & T & v & HT & HF & Hv & _).
  - apply list_elem_of_here.
  - simpl. lia.
  - exists F, T, v. split; [exact HT |]. split; [exact HF |].
    rewrite Hv. reflexivity.
Defined.

(** ** The measurement name *)

(** C5.  A decoded snapshot is emitted under the configured measurement
    name when that name is not empty, and under the default literal
    [goruntime_m] when it is empty; [custom_m] is emitted as
    [custom_m]. *)
Theorem measurement_name_fallback (c : GoRuntime) (rd : RuntimeData) (acc : Accumulator) :
  wf_RuntimeData rd ->
  ∃ F T,
    Transform rd = Some (F, T)
    ∧ (Measurement c ≠ ""%string ->
       parse c rd acc = Some (AddGauge (Measurement c) F T acc, None))
    ∧ (Measurement c = ""%string ->
       parse c rd acc = Some (AddGauge "goruntime_m" F T acc, None))
    ∧ (Measurement c = "custom_m"%string ->
       parse c rd acc = Some (AddGauge "custom_m" F T acc, None)).
Proof.
  intros Hwf. destruct (Transform_total rd Hwf) as [[F T] HT].
  exists F, T. split; [exact HT |].
  rewrite parse_Transform, HT. unfold AddGauge, DefaulMeasurement.
  split; [| split].
  - intros Hne. rewrite decide_False by exact Hne. reflexivity.
  - intros Heq. rewrite decide_True by exact Heq. reflexivity.
  - intros Heq. rewrite Heq. reflexivity.
Qed.

Lemma measurement_name_fallback_witness :
  ∃ F T,
    parse (named_GoRuntime "custom_m") sample_RuntimeData []
      = Some ([Gauge "custom_m" F T], None)
    ∧ parse (named_GoRuntime "") sample_RuntimeData []
      = Some ([Gauge "goruntime_m" F T], None).
Proof.
  destruct (measurement_name_fallback (named_GoRuntime "custom_m")
              sample_RuntimeData [] wf_sample) as (F & T & HT & Hnamed & _).
  destruct (measurement_name_fallback (named_GoRuntime "")
              sample_RuntimeData [] wf_sample) as (F' & T' & HT' & _ & Hdefault & _).
  exists F, T. split.
  - apply Hnamed. discriminate.
  - rewrite HT in HT'. injection HT' as <- <-. apply Hdefault. reflexivity.
Defined.

(** ** Determinism *)

(** C8.  The Transform is a function of the snapshot alone: in any two
    configurations and on any two accumulators, [parse] adds to the
    accumulator exactly one record, returns no error, and the field
    mapping and the tag mapping of the two records are those of the
    Transform, hence equal. *)
Theorem transform_deterministic (c1 c2 : GoRuntime) (acc1 acc2 : Accumulator)
    (rd : RuntimeData) :
  wf_RuntimeData rd ->
  ∃ F T name1 name2,
    Transform rd = Some (F, T)
    ∧ parse c1 rd acc1 = Some (acc1 ++ [Gauge name1 F T], None)
    ∧ parse c2 rd acc2 = Some (acc2 ++ [Gauge name2 F T], None).
Proof.
  intros Hwf. destruct (Transform_total rd Hwf) as [[F T] HT].
  exists F, T. do 2 eexists.
  split; [exact HT |].
  rewrite !parse_Transform, HT. split; reflexivity.
Qed.

Lemma transform_deterministic_witness :
  ∃ F T name1 name2,
    Transform sample_RuntimeData = Some (F, T)
    ∧ parse default_GoRuntime sample_RuntimeData []
      = Some ([Gauge name1 F T], None)
    ∧ parse (named_GoRuntime "custom_m") sample_RuntimeData
        [Err (External "connection refused")]
      = Some ([Err (External "connection refused"); Gauge name2 F T], None).
Proof.
  exact (transform_deterministic default_GoRuntime (named_GoRuntime "custom_m")
           [] [Err (External "connection refused")] sample_RuntimeData wf_sample).
Defined.

(** ** The status check *)

Section StatusCheck.

Context `{Collaborators}.

(** C4, as the code has it.  When a response has been received, the
    fetch ends with the error that tells the received status from the
    expected one if and only if the status code is not 200; on 200 the
    body is decoded, and the fetch ends with the decoding error or with
    what [parse] does with the decoded snapshot. *)
Theorem status_error_iff_not_200 (c : GoRuntime) (acc : Accumulator) (url : string)
    (request : http.Request) (cl : http.Client) (resp : http.Response) :
  NewRequest (Method c) url = inr request ->
  client c = Some cl ->
  Do cl (if decide (Username c ≠ ""%string ∨ Password c ≠ ""%string)
         then http.SetBasicAuth (Username c) (Password c) request
         else request) = inr resp ->
  let code := http.StatusCode resp in
  (gatherURL c acc url = Some (acc, Some (status_error code)) ↔ code ≠ 200)
  ∧ (code = 200 ->
     gatherURL c acc url =
       match Decode (http.Body resp) with
       | inl err => Some (acc, Some (External err))
       | inr data => parse c data acc
       end)
  ∧ Error (status_error code) =
      ("Received status code " +:+ pretty code +:+ " (" +:+ StatusText code
       +:+ "), expected 200 (" +:+ StatusText 200 +:+ ")")%string.
Proof.
  intros Hreq Hcl Hdo code.
  assert (code = 200 ->
          gatherURL c acc url =
            match Decode (http.Body resp) with
            | inl err => Some (acc, Some (External err))
            | inr data => parse c data acc
            end) as Hok.
  { intros Hcode. unfold gatherURL. rewrite Hreq, Hcl. cbn [mbind option_bind].
    rewrite Hdo. fold code. rewrite decide_False; [reflexivity |].
    intros Hne. apply Hne. exact Hcode. }
  split; [| split; [exact Hok | reflexivity]].
  split.
  - intros Hret Hcode. rewrite (Hok Hcode) in Hret.
    destruct (Decode (http.Body resp)) as [err | data].
    + discriminate.
    + rewrite parse_Transform in Hret.
      destruct (Transform data) as [[F T] |]; discriminate.
  - intros Hcode. unfold gatherURL. rewrite Hreq, Hcl. cbn [mbind option_bind].
    rewrite Hdo. fold code. rewrite decide_True by exact Hcode. reflexivity.
Qed.

End StatusCheck.

(** At endpoint [b] of the sample deployment the status is 500 and the
    fetch ends with the status error. *)
Lemma status_error_iff_not_200_witness :
  @gatherURL sample_server (polling_GoRuntime [] "" (Some sample_Client)) []
    "http://b:8062/debug/vars"
  = Some ([], Some (Errorf
      "Received status code 500 (Internal Server Error), expected 200 (OK)")).
Proof.
  pose proof (@status_error_iff_not_200 sample_server
                (polling_GoRuntime [] "" (Some sample_Client)) []
                "http://b:8062/debug/vars"
                {| http.Method := "GET"; http.URL := "http://b:8062/debug/vars";
                   http.BasicAuth := None |}
                sample_Client
                {| http.StatusCode := 500; http.Body := "" |}
                eq_refl eq_refl eq_refl) as [Hiff _].
  apply Hiff. simpl. lia.
Defined.

(** C4, as the claim has it, fails: endpoint [d] answers 201, a 2xx
    status, and the fetch still ends with the status error, without
    decoding the body. *)
Lemma status_201_is_an_error :
  let c := polling_GoRuntime [] "" (Some sample_Client) in
  let url := "http://d:8062/debug/vars"%string in
  @Do sample_server sample_Client
    {| http.Method := "GET"; http.URL := url; http.BasicAuth := None |}
    = inr {| http.StatusCode := 201; http.Body := "snapshot-a" |}
  ∧ is_2xx 201
  ∧ @gatherURL sample_server c [] url
    = Some ([], Some (@status_error sample_server 201))
  ∧ @gatherURL sample_server c [] url
    ≠ match @Decode sample_server "snapshot-a" with
      | inl err => Some ([], Some (External err))
      | inr data => parse c data []
      end
  ∧ ¬ (∀ (W : Collaborators) (c : GoRuntime) (acc : Accumulator) (url : string)
         (request : http.Request) (cl : http.Client) (resp : http.Response),
         NewRequest (Method c) url = inr request ->
         client c = Some cl ->
         Do cl (if decide (Username c ≠ ""%string ∨ Password c ≠ ""%string)
                then http.SetBasicAuth (Username c) (Password c) request
                else request) = inr resp ->
         (gatherURL c acc url
            = Some (acc, Some (status_error (http.StatusCode resp)))
          ↔ ¬ is_2xx (http.StatusCode resp))).
Proof.
  assert (@gatherURL sample_server (polling_GoRuntime [] "" (Some sample_Client)) []
            "http://d:8062/debug/vars"
          = Some ([], Some (@status_error sample_server 201))) as Hrun
    by (vm_compute; reflexivity).
  cbv zeta.
  split; [reflexivity |].
  split; [unfold is_2xx; lia |].
  split; [exact Hrun |].
  split.
  - rewrite Hrun. cbn [Decode sample_server String.eqb Ascii.eqb Bool.eqb].
    rewrite parse_Transform.
    destruct (Transform sample_RuntimeData) as [[F T] |]; discriminate.
  - intros Hclaim.
    specialize (Hclaim sample_server (polling_GoRuntime [] "" (Some sample_Client)) []
                  "http://d:8062/debug/vars"%string
                  {| http.Method := "GET"; http.URL := "http://d:8062/debug/vars";
                     http.BasicAuth := None |}
                  sample_Client
                  {| http.StatusCode := 201; http.Body := "snapshot-a" |}
                  eq_refl eq_refl eq_refl).
    apply Hclaim; [exact Hrun |]. unfold is_2xx. simpl. lia.
Qed.

(** ** The poll cycle *)

Section PollCycle.

Context `{Collaborators}.

(** A fetch passes the accumulator through untouched when it fails and
    adds one gauge to it when it succeeds, whatever the accumulator
    holds. *)
Lemma gatherURL_cases (c : GoRuntime) (url : string) :
  (∀ acc, gatherURL c acc url = None)
  ∨ (∃ err, ∀ acc, gatherURL c acc url = Some (acc, Some err))
  ∨ (∃ m F T, ∀ acc, gatherURL c acc url = Some (acc ++ [Gauge m F T], None)).
Proof.
  unfold gatherURL.
  destruct (NewRequest (Method c) url) as [err | request].
  { right. left. exists (External err). reflexivity. }
  destruct (client c) as [cl |]; cbn [mbind option_bind]; [| left; reflexivity].
  destruct (Do cl _) as [err | resp].
  { right. left. exists (External err). reflexivity. }
  destruct (decide (http.StatusCode resp ≠ http.StatusOK)).
  { right. left. eexists. reflexivity. }
  destruct (Decode (http.Body resp)) as [err | data].
  { right. left. exists (External err). reflexivity. }
  destruct (Transform data) as [[F T] |] eqn:HT.
  - right. right. do 3 eexists. intros acc. rewrite parse_Transform, HT. reflexivity.
  - left. intros acc. rewrite parse_Transform, HT. reflexivity.
Qed.

(** With a client in place and a decoder that yields values of the Go
    type, a fetch does not panic. *)
Lemma gatherURL_no_panic (c : GoRuntime) (acc : Accumulator) (url : string) :
  (∀ body rd, Decode body = inr rd -> wf_RuntimeData rd) ->
  is_Some (client c) ->
  is_Some (gatherURL c acc url).
Proof.
  intros Hdec [cl Hcl]. unfold gatherURL. rewrite Hcl.
  destruct (NewRequest (Method c) url) as [err | request]; [eexists; reflexivity |].
  cbn [mbind option_bind].
  destruct (Do cl _) as [err | resp]; [eexists; reflexivity |].
  destruct (decide (http.StatusCode resp ≠ http.StatusOK)); [eexists; reflexivity |].
  destruct (Decode (http.Body resp)) as [err | data] eqn:Hd; [eexists; reflexivity |].
  rewrite parse_Transform.
  destruct (Transform_total data (Hdec _ _ Hd)) as [[F T] ->]. eexists. reflexivity.
Qed.

(** A goroutine that does not panic adds exactly one call, the same on
    every accumulator: the labelled error of a failed fetch or the gauge
    of a successful one. *)
Lemma goroutine_cases (c : GoRuntime) (url : string) :
  (∀ acc, goroutine c url acc = None)
  ∨ ∃ x,
      (∀ acc, goroutine c url acc = Some (acc ++ [x]))
      ∧ ((∃ err, x = Err (url_error url err)
                 ∧ ∀ acc, gatherURL c acc url = Some (acc, Some err))
         ∨ (∃ m F T, x = Gauge m F T
                     ∧ ∀ acc, gatherURL c acc url = Some (acc ++ [x], None))).
Proof.
  unfold goroutine.
  destruct (gatherURL_cases c url) as [Hp | [(err & He) | (m & F & T & Hg)]].
  - left. intros acc. rewrite Hp. reflexivity.
  - right. exists (Err (url_error url err)). split.
    + intros acc. rewrite He. reflexivity.
    + left. exists err. split; [reflexivity | exact He].
  - right. exists (Gauge m F T). split.
    + intros acc. rewrite Hg. reflexivity.
    + right. exists m, F, T. split; [reflexivity | exact Hg].
Qed.

Lemma goroutine_report (c : GoRuntime) (url : string) (acc acc' : Accumulator) :
  goroutine c url acc = Some acc' -> acc' = acc ++ report c url.
Proof.
  intros Hrun. unfold report.
  destruct (goroutine_cases c url) as [Hp | (x & Hx & _)].
  - rewrite Hp in Hrun. discriminate.
  - rewrite Hx in Hrun. rewrite Hx. injection Hrun as <-. reflexivity.
Qed.

Lemma goroutine_no_panic (c : GoRuntime) (url : string) (acc : Accumulator) :
  (∀ body rd, Decode body = inr rd -> wf_RuntimeData rd) ->
  is_Some (client c) ->
  is_Some (goroutine c url acc).
Proof.
  intros Hdec Hcl. unfold goroutine.
  destruct (gatherURL_no_panic c acc url Hdec Hcl) as [[acc' [err |]] ->];
    eexists; reflexivity.
Qed.


(** The calls received along a run are, up to their order, the reports
    of the goroutines that have finished. *)
Lemma finish_run_reports (c : GoRuntime) (st st' : list string * Accumulator) :
  rtc (finish c) st st' ->
  ∃ reports,
    st'.2 = st.2 ++ reports
    ∧ reports ++ (st'.1 ≫= report c) ≡ₚ st.1 ≫= report c.
Proof.
  induction 1 as [st | st st1 st' Hstep _ (reports & Hacc & Hperm)].
  - exists []. rewrite app_nil_r. split; reflexivity.
  - destruct Hstep as [running url running' acc acc1 Hrun].
    cbn [fst snd] in *. apply goroutine_report in Hrun. subst acc1.
    exists (report c url ++ reports). split.
    + rewrite Hacc, <- app_assoc. reflexivity.
    + rewrite <- app_assoc, Hperm.
      rewrite !bind_app, bind_cons.
      rewrite !app_assoc. apply Permutation_app_tail.
      apply Permutation_app_comm.
Qed.

(** From any state the goroutines still running can all finish. *)
Lemma finish_progress (c : GoRuntime) (running : list string) (acc : Accumulator) :
  (∀ body rd, Decode body = inr rd -> wf_RuntimeData rd) ->
  is_Some (client c) ->
  ∃ acc', rtc (finish c) (running, acc) ([], acc').
Proof.
  intros Hdec Hcl. revert acc.
  induction running as [| url running IH]; intros acc.
  - exists acc. apply rtc_refl.
  - destruct (goroutine_no_panic c url acc Hdec Hcl) as [acc1 Hrun].
    destruct (IH acc1) as [acc' Hrest].
    exists acc'. eapply rtc_l; [| exact Hrest].
    exact (finish_one c [] url running acc acc1 Hrun).
Qed.

(** The run in which the goroutines finish in the order they were
    started is one of the runs of [Gather]. *)
Lemma finish_in_order_run (c : GoRuntime) (urls : list string) (acc acc' : Accumulator) :
  finish_in_order c urls acc = Some acc' ->
  rtc (finish c) (urls, acc) ([], acc').
Proof.
  revert acc. induction urls as [| url urls IH]; intros acc; cbn [finish_in_order].
  - intros [= <-]. apply rtc_refl.
  - destruct (goroutine c url acc) as [acc1 |] eqn:Hrun; [| discriminate].
    cbn [mbind option_bind]. intros Hrest.
    eapply rtc_l; [| exact (IH _ Hrest)].
    exact (finish_one c [] url urls acc acc1 Hrun).
Qed.

Lemma Gather_in_order_run (c c' : GoRuntime) (acc acc' : Accumulator)
    (ret : option error) :
  Gather_in_order c acc = Some (c', acc', ret) -> Gather c acc c' acc' ret.
Proof.
  unfold Gather_in_order.
  destruct (Gather_client c) as [[c0 err] | c1] eqn:Hc.
  - intros [= <- <- <-]. apply Gather_err. exact Hc.
  - destruct (finish_in_order c1 (Urls c1) acc) as [acc1 |] eqn:Hrun; [| discriminate].
    intros [= <- <- <-]. apply Gather_nil; [exact Hc |].
    apply finish_in_order_run. exact Hrun.
Qed.

Lemma Gather_client_inr (c c' : GoRuntime) :
  Gather_client c = inr c' ->
  is_Some (client c')
  ∧ Urls c' = Urls c
  ∧ Method c' = Method c
  ∧ Measurement c' = Measurement c
  ∧ (is_Some (client c) -> c' = c).
Proof.
  unfold Gather_client. destruct (client c) as [cl |] eqn:Hcl.
  - intros [= <-]. rewrite Hcl. repeat split; eauto.
  - destruct (TLSConfig (ClientConfig c)) as [settings [err | cfg]]; [discriminate |].
    intros [= <-]. cbn. repeat split; eauto.
    intros [? [=]].
Qed.


(** The client fails to build exactly when there is none yet and the
    TLS settings fail: the configuration is then left with the settings
    as [TLSConfig] left them and still no client. *)
Lemma Gather_client_inl (c c' : GoRuntime) (err : error) :
  Gather_client c = inl (c', err)
  ↔ client c = None
    ∧ ∃ settings msg,
        TLSConfig (ClientConfig c) = (settings, inl msg)
        ∧ c' = after_TLSConfig c settings None
        ∧ err = External msg.
Proof.
  unfold Gather_client. split.
  - destruct (client c); [discriminate |].
    destruct (TLSConfig (ClientConfig c)) as [settings [msg | cfg]]; [| discriminate].
    intros [= <- <-]. split; [reflexivity |]. exists settings, msg.
    repeat split.
  - intros (-> & settings & msg & -> & -> & ->). reflexivity.
Qed.



End PollCycle.

Lemma sample_server_Decode_wf (body : string) (rd : RuntimeData) :
  @Decode sample_server body = inr rd -> wf_RuntimeData rd.
Proof.
  cbn [Decode sample_server].
  destruct (String.eqb body "snapshot-a"); [intros [= <-]; exact wf_sample |].
  destruct (String.eqb body "snapshot-c"); [intros [= <-]; exact wf_wrapping |].
  discriminate.
Defined.



(** The same three endpoints with TLS settings that load: [a] and [c]
    are emitted and [b] is reported, when the goroutines finish in the
    order they were started. *)
Example partial_failure_in_order :
  match @Gather_in_order sample_server
          (polling_GoRuntime ["http://a:8062/debug/vars"; "http://b:8062/debug/vars";
                              "http://c:8062/debug/vars"] "" None) [] with
  | Some (_, [Gauge ma _ Ta; Err err; Gauge mc _ Tc], None) =>
      ma = "goruntime_m"%string
      ∧ Ta !! "serial"%string = Some "node-7"%string
      ∧ Error err = ("[url=http://b:8062/debug/vars]: Received status code 500 "
                     +:+ "(Internal Server Error), expected 200 (OK)")%string
      ∧ mc = "goruntime_m"%string
      ∧ Tc !! "serial"%string = Some ""%string
  | _ => False
  end.
Proof. vm_compute. repeat split. Qed.

(** * Further properties of metric.go *)

(** What [Values] holds under a key is one of the entries of its
    literal. *)
Lemma Values_lookup_entry (f : Fields) (key : string) (v : value) :
  Values f !! key = Some v ->
  (key = "mem.gc.cpu_fraction"%string ∧ v = VFloat (Fields.GCCPUFraction f))
  ∨ ∃ n, v = VInt n ∧ n ∈ [
      Fields.NumCpu f; Fields.NumGoroutine f; Fields.NumCgoCall f; Fields.NumThread f;
      Fields.CpuPercent f; Fields.MemPercent f;
      Fields.Alloc f; Fields.TotalAlloc f; Fields.Sys f; Fields.Lookups f;
      Fields.Mallocs f; Fields.Frees f;
      Fields.HeapAlloc f; Fields.HeapSys f; Fields.HeapIdle f; Fields.HeapInuse f;
      Fields.HeapReleased f; Fields.HeapObjects f;
      Fields.StackInuse f; Fields.StackSys f; Fields.MSpanInuse f; Fields.MSpanSys f;
      Fields.MCacheInuse f; Fields.MCacheSys f; Fields.OtherSys f;
      Fields.GCSys f; Fields.NextGC f; Fields.LastGC f; Fields.PauseTotalNs f;
      Fields.PauseNs f; Fields.NumGC f ].
Proof.
  unfold Values. intros Hin. apply elem_of_list_to_map_2 in Hin.
  repeat (apply elem_of_cons in Hin as [Hin | Hin];
          [ injection Hin as -> ->;
            first [ left; split; reflexivity
                  | right; eexists; split; [reflexivity |];
                    repeat first [ apply list_elem_of_here | apply list_elem_of_further ] ]
          | ]).
  apply elem_of_nil in Hin. destruct Hin.
Qed.

(** The fields of a Transform, when it does not panic. *)
Lemma Transform_fields (rd : RuntimeData) (F : gmap string value)
    (T : gmap string string) :
  Transform rd = Some (F, T) ->
  ∃ fields pause,
    parse_fields rd = Some fields
    ∧ F = Values fields ∧ T = Tags fields
    ∧ runtime.PauseNs (RuntimeData.Memstats rd)
        !! Z.to_nat ((runtime.NumGC (RuntimeData.Memstats rd) + 255) mod 256)
        = Some pause
    ∧ Fields.PauseNs fields = int64 pause.
Proof.
  unfold Transform. destruct (parse_fields rd) as [fields |] eqn:Hf; [| discriminate].
  cbn [mbind option_bind]. intros [= <- <-].
  unfold parse_fields, collectGCStats in Hf. rewrite pause_index in Hf.
  destruct (runtime.PauseNs _ !! _) as [pause |] eqn:Hp; [| discriminate].
  cbn [mbind option_bind] in Hf. injection Hf as <-.
  eexists. exists pause. repeat split; reflexivity || exact Hp.
Qed.

(** X1.  Every integer a Transform emits is a value of [int64],
    whatever the snapshot holds. *)
Theorem emitted_integers_are_int64 (rd : RuntimeData) (F : gmap string value)
    (T : gmap string string) (key : string) (n : Z) :
  Transform rd = Some (F, T) ->
  F !! key = Some (VInt n) ->
  is_int64 n.
Proof.
  intros HT Hkey.
  destruct (Transform_fields rd F T HT) as (fields & pause & Hf & -> & _ & Hp & _).
  unfold parse_fields, collectGCStats in Hf. rewrite pause_index, Hp in Hf.
  cbn [mbind option_bind] in Hf. injection Hf as <-.
  apply Values_lookup_entry in Hkey as [[_ [=]] | (n' & [= <-] & Hin)].
  cbn in Hin.
  repeat (apply elem_of_cons in Hin as [-> | Hin];
          [ first [ apply int64_range | unfold is_int64; lia ] | ]).
  apply elem_of_nil in Hin. destruct Hin.
Qed.

Lemma emitted_integers_are_int64_witness : is_int64 (- 2 ^ 63).
Proof.
  destruct (Transform_total wrapping_RuntimeData wf_wrapping) as [[F T] HT].
  apply (emitted_integers_are_int64 wrapping_RuntimeData F T "mem.gc.pause" _ HT).
  destruct (Transform_fields _ _ _ HT) as (fields & pause & Hf & -> & _ & Hp & Hpause).
  change (Some (VInt (Fields.PauseNs fields)) = Some (VInt (- 2 ^ 63))).
  rewrite Hpause. vm_compute in Hp. injection Hp as <-. reflexivity.
Defined.

(** X2.  The GC CPU fraction is the only floating-point field of a
    Transform, and it is the fraction of the snapshot, unchanged. *)
Theorem cpu_fraction_only_float (rd : RuntimeData) (F : gmap string value)
    (T : gmap string string) (key : string) (x : spec_float) :
  Transform rd = Some (F, T) ->
  F !! key = Some (VFloat x)
  ↔ key = "mem.gc.cpu_fraction"%string
    ∧ x = runtime.GCCPUFraction (RuntimeData.Memstats rd).
Proof.
  intros HT.
  destruct (Transform_fields rd F T HT) as (fields & pause & Hf & -> & _ & Hp & _).
  unfold parse_fields, collectGCStats in Hf. rewrite pause_index, Hp in Hf.
  cbn [mbind option_bind] in Hf. injection Hf as <-.
  split.
  - intros Hkey. apply Values_lookup_entry in Hkey as [[-> [= ->]] | (n & [=] & _)].
    split; reflexivity.
  - intros [-> ->]. reflexivity.
Qed.

Lemma cpu_fraction_only_float_witness :
  ∃ F T,
    Transform sample_RuntimeData = Some (F, T)
    ∧ F !! "mem.gc.cpu_fraction"%string = Some (VFloat (S754_finite false 1 (-10))).
Proof.
  destruct (Transform_total sample_RuntimeData wf_sample) as [[F T] HT].
  exists F, T. split; [exact HT |].
  apply (cpu_fraction_only_float sample_RuntimeData F T _ _ HT).
  split; reflexivity.
Defined.

(** Each scalar source is emitted through [int64]. *)
Lemma Transform_scalar (rd : RuntimeData) (F : gmap string value)
    (T : gmap string string) (key : string) (src : RuntimeData -> Z) :
  Transform rd = Some (F, T) ->
  (key, src) ∈ scalar_sources ->
  F !! key = Some (VInt (int64 (src rd))).
Proof.
  intros HT Hin.
  destruct (Transform_fields rd F T HT) as (fields & pause & Hf & -> & _ & Hp & _).
  unfold parse_fields, collectGCStats in Hf. rewrite pause_index, Hp in Hf.
  cbn [mbind option_bind] in Hf. injection Hf as <-.
  unfold scalar_sources, int_sources, uint64_sources, uint32_sources in Hin.
  cbn [app map] in Hin.
  repeat (apply elem_of_cons in Hin as [Hin | Hin];
          [ injection Hin as -> ->; reflexivity | ]).
  apply elem_of_nil in Hin. destruct Hin.
Qed.

Lemma wf_scalar_range (rd : RuntimeData) (key : string) (src : RuntimeData -> Z) :
  wf_RuntimeData rd ->
  (key, src) ∈ scalar_sources ->
  - 2 ^ 63 <= src rd < 2 ^ 64.
Proof.
  intros [Hints (Hall & Hgc & _)] Hin.
  repeat (apply Forall_cons in Hints as [? Hints]).
  repeat (apply Forall_cons in Hall as [? Hall]).
  unfold is_int, is_uint64, is_uint32 in *.
  unfold scalar_sources, int_sources, uint64_sources, uint32_sources in Hin.
  cbn [app map] in Hin.
  repeat (apply elem_of_cons in Hin as [Hin | Hin];
          [ injection Hin as -> ->; lia | ]).
  apply elem_of_nil in Hin. destruct Hin.
Qed.

(** X3.  A scalar of the snapshot is emitted with its own value exactly
    when that value is below [2^63]: the 32-bit bound is not the limit
    of the conversion, the sign bit is. *)
Theorem scalar_exact_iff_below_2_63 (rd : RuntimeData) (key : string)
    (src : RuntimeData -> Z) :
  wf_RuntimeData rd ->
  (key, src) ∈ scalar_sources ->
  ∃ F T,
    Transform rd = Some (F, T)
    ∧ (F !! key = Some (VInt (src rd)) ↔ src rd < 2 ^ 63).
Proof.
  intros Hwf Hin.
  destruct (Transform_total rd Hwf) as [[F T] HT].
  exists F, T. split; [exact HT |].
  rewrite (Transform_scalar rd F T key src HT Hin).
  pose proof (wf_scalar_range rd key src Hwf Hin) as Hrange.
  split.
  - intros [= Heq]. pose proof (int64_range (src rd)) as Hr.
    unfold is_int64 in Hr. lia.
  - intros Hlt. rewrite int64_id by (unfold is_int64; lia). reflexivity.
Qed.

Lemma scalar_exact_iff_below_2_63_witness :
  ∃ F T,
    Transform sample_RuntimeData = Some (F, T)
    ∧ F !! "mem.gc.last"%string = Some (VInt 1700000000000000000).
Proof.
  destruct (scalar_exact_iff_below_2_63 sample_RuntimeData "mem.gc.last"
              (λ rd, runtime.LastGC (RuntimeData.Memstats rd)) wf_sample)
    as (F & T & HT & Hiff).
  - unfold scalar_sources, int_sources, uint64_sources, uint32_sources.
    cbn [app map]. do 26 apply list_elem_of_further. apply list_elem_of_here.
  - exists F, T. split; [exact HT |]. apply Hiff. simpl. lia.
Defined.

(** X4.  No bit of a [uint64] counter is lost: the counter is the value
    emitted under its key, taken modulo [2^64]. *)
Theorem counter_recovered_mod_2_64 (rd : RuntimeData) (key : string)
    (src : runtime.MemStats -> Z) :
  wf_RuntimeData rd ->
  (key, src) ∈ uint64_sources ->
  ∃ F T n,
    Transform rd = Some (F, T)
    ∧ F !! key = Some (VInt n)
    ∧ n mod 2 ^ 64 = src (RuntimeData.Memstats rd).
Proof.
  intros Hwf Hin.
  destruct (Transform_total rd Hwf) as [[F T] HT].
  exists F, T, (int64 (src (RuntimeData.Memstats rd))).
  split; [exact HT |]. split.
  - apply (Transform_scalar rd F T key (λ rd, src (RuntimeData.Memstats rd)) HT).
    unfold scalar_sources. apply elem_of_app. right.
    apply (list_elem_of_fmap_2'
             (λ '(key, src), (key, λ rd, src (RuntimeData.Memstats rd)))
             _ (key, src)); [| reflexivity].
    apply elem_of_app. left. exact Hin.
  - apply int64_word. destruct Hwf as [_ Hm].
    exact (wf_uint64_source _ key src Hm Hin).
Qed.

Lemma counter_recovered_mod_2_64_witness :
  ∃ F T n,
    Transform wrapping_RuntimeData = Some (F, T)
    ∧ F !! "mem.alloc"%string = Some (VInt n)
    ∧ n mod 2 ^ 64 = 2 ^ 64 - 1.
Proof.
  exact (counter_recovered_mod_2_64 wrapping_RuntimeData "mem.alloc" runtime.Alloc
           wf_wrapping (list_elem_of_here _ _)).
Defined.

(** X5.  Of the 256 pauses of the history, [collectGCStats] looks at one:
    overwriting any other slot changes nothing of its result, and
    overwriting that slot changes the reported pause to the new entry. *)
Theorem only_latest_slot_matters (fields : Fields) (m : runtime.MemStats)
    (j : nat) (v : Z) :
  let latest := Z.to_nat ((runtime.NumGC m + 255) mod 256) in
  let m' := with_PauseNs m (<[j := v]> (runtime.PauseNs m)) in
  (j ≠ latest -> collectGCStats fields m' = collectGCStats fields m)
  ∧ (j = latest -> (j < length (runtime.PauseNs m))%nat ->
     ∃ fields', collectGCStats fields m' = Some fields'
                ∧ Fields.PauseNs fields' = int64 v).
Proof.
  cbv zeta. unfold collectGCStats. rewrite !pause_index.
  cbn [with_PauseNs runtime.PauseNs runtime.NumGC].
  split.
  - intros Hne. rewrite list_lookup_insert_ne by exact Hne. reflexivity.
  - intros -> Hlt. rewrite list_lookup_insert_eq by exact Hlt.
    cbn [mbind option_bind]. eexists. split; reflexivity.
Qed.

Lemma only_latest_slot_matters_witness :
  collectGCStats Fields_zero
    (with_PauseNs sample_MemStats (<[7%nat := 99]> (runtime.PauseNs sample_MemStats)))
  = collectGCStats Fields_zero sample_MemStats.
Proof.
  apply (only_latest_slot_matters Fields_zero sample_MemStats 7 99).
  vm_compute. lia.
Defined.

(** X6.  The two collection steps write disjoint fields: they can run in
    either order, also on different statistics, and a second run of
    [collectMemStats] overwrites all a first one wrote. *)
Theorem collection_steps_commute (fields : Fields) (m1 m2 : runtime.MemStats) :
  collectGCStats (collectMemStats fields m1) m2
    = (λ fields', collectMemStats fields' m1) <$> collectGCStats fields m2
  ∧ collectMemStats (collectMemStats fields m1) m2 = collectMemStats fields m2
  ∧ (∀ g1 g2,
       collectGCStats fields m1 = Some g1 ->
       collectGCStats g1 m2 = Some g2 ->
       collectGCStats fields m2 = Some g2).
Proof.
  split; [| split].
  - unfold collectGCStats.
    destruct (runtime.PauseNs m2 !! _) as [pause |]; reflexivity.
  - reflexivity.
  - intros g1 g2. unfold collectGCStats.
    destruct (runtime.PauseNs m1 !! _) as [p1 |]; [| discriminate].
    destruct (runtime.PauseNs m2 !! _) as [p2 |]; [| discriminate].
    cbn [mbind option_bind]. intros [= <-] [= <-]. reflexivity.
Qed.

(** * Further properties of goruntime.go *)

Section Fetch.

Context `{Collaborators}.

(** What a fetch that does not panic has done. *)
Lemma gatherURL_outcome (c : GoRuntime) (acc acc' : Accumulator) (url : string)
    (ret : option error) :
  gatherURL c acc url = Some (acc', ret) ->
  (ret = None ∧ ∃ F T, acc' = acc ++ [Gauge (emitted_name c) F T])
  ∨ (acc' = acc
     ∧ ∃ err, ret = Some err
              ∧ ((∃ msg, err = External msg)
                 ∨ (∃ code, code ≠ 200 ∧ err = status_error code))).
Proof.
  unfold gatherURL.
  destruct (NewRequest (Method c) url) as [msg | request].
  { intros [= <- <-]. right. split; [reflexivity |]. eauto. }
  destruct (client c) as [cl |]; cbn [mbind option_bind]; [| discriminate].
  destruct (Do cl _) as [msg | resp].
  { intros [= <- <-]. right. split; [reflexivity |]. eauto. }
  destruct (decide (http.StatusCode resp ≠ http.StatusOK)) as [Hcode | _].
  { intros [= <- <-]. right. split; [reflexivity |].
    eexists. split; [reflexivity |]. right. eexists. split; [exact Hcode | reflexivity]. }
  destruct (Decode (http.Body resp)) as [msg | data].
  { intros [= <- <-]. right. split; [reflexivity |]. eauto. }
  rewrite parse_Transform. destruct (Transform data) as [[F T] |]; [| discriminate].
  intros [= <- <-]. left. split; [reflexivity |]. exists F, T. reflexivity.
Qed.


(** X8.  A 200 response whose body decodes is emitted whole: the fetch
    returns no error and adds the gauge of the Transform of the decoded
    snapshot, under the configured or default name, and its goroutine
    adds nothing more. *)
Theorem fetch_success_emits_transform (c : GoRuntime) (acc : Accumulator) (url : string)
    (request : http.Request) (cl : http.Client) (resp : http.Response)
    (rd : RuntimeData) :
  NewRequest (Method c) url = inr request ->
  client c = Some cl ->
  Do cl (if decide (Username c ≠ ""%string ∨ Password c ≠ ""%string)
         then http.SetBasicAuth (Username c) (Password c) request
         else request) = inr resp ->
  http.StatusCode resp = 200 ->
  Decode (http.Body resp) = inr rd ->
  wf_RuntimeData rd ->
  ∃ F T,
    Transform rd = Some (F, T)
    ∧ gatherURL c acc url = Some (acc ++ [Gauge (emitted_name c) F T], None)
    ∧ goroutine c url acc = Some (acc ++ [Gauge (emitted_name c) F T]).
Proof.
  intros Hreq Hcl Hdo Hcode Hdec Hwf.
  destruct (Transform_total rd Hwf) as [[F T] HT].
  exists F, T. split; [exact HT |].
  assert (gatherURL c acc url = Some (acc ++ [Gauge (emitted_name c) F T], None))
    as Hrun.
  { unfold gatherURL. rewrite Hreq, Hcl. cbn [mbind option_bind].
    rewrite Hdo, Hcode, Hdec. rewrite decide_False by (intros Hne; apply Hne; reflexivity).
    rewrite parse_Transform, HT. reflexivity. }
  split; [exact Hrun |].
  unfold goroutine. rewrite Hrun. reflexivity.
Qed.

End Fetch.


Lemma fetch_success_emits_transform_witness :
  ∃ F T,
    Transform sample_RuntimeData = Some (F, T)
    ∧ @gatherURL sample_server (polling_GoRuntime [] "" (Some sample_Client)) []
        "http://a:8062/debug/vars"
      = Some ([Gauge "goruntime_m" F T], None).
Proof.
  destruct (@fetch_success_emits_transform sample_server
              (polling_GoRuntime [] "" (Some sample_Client)) []
              "http://a:8062/debug/vars"
              {| http.Method := "GET"; http.URL := "http://a:8062/debug/vars";
                 http.BasicAuth := None |}
              sample_Client
              {| http.StatusCode := 200; http.Body := "snapshot-a" |}
              sample_RuntimeData
              eq_refl eq_refl eq_refl eq_refl eq_refl wf_sample)
    as (F & T & HT & Hrun & _).
  exists F, T. split; [exact HT | exact Hrun].
Defined.

Section Cycle.

Context `{Collaborators}.

(** The goroutines that have finished along a run have each added one
    call. *)
Lemma finish_run_singletons (c : GoRuntime) (st st' : list string * Accumulator) :
  rtc (finish c) st st' ->
  Forall (λ url, length (report c url) = 1%nat) st'.1 ->
  Forall (λ url, length (report c url) = 1%nat) st.1.
Proof.
  induction 1 as [st | st st1 st' Hstep _ IH]; [tauto |].
  intros Hrest. specialize (IH Hrest).
  destruct Hstep as [running url running' acc acc1 Hrun]. cbn [fst] in *.
  apply Forall_app in IH as [Hpre Hpost].
  apply Forall_app. split; [exact Hpre |].
  apply Forall_cons. split; [| exact Hpost].
  unfold report. destruct (goroutine_cases c url) as [Hp | (x & Hx & _)].
  - rewrite Hp in Hrun. discriminate.
  - rewrite Hx. reflexivity.
Qed.

Lemma bind_singletons_length (c : GoRuntime) (urls : list string) :
  Forall (λ url, length (report c url) = 1%nat) urls ->
  length (urls ≫= report c) = length urls.
Proof.
  induction 1 as [| url urls Hone _ IH]; [reflexivity |].
  rewrite bind_cons, length_app, Hone, IH. reflexivity.
Qed.

(** Every call of a report is an error labelled with the url or a gauge
    under the emitted name. *)
Lemma report_labelled (c : GoRuntime) (url : string) (x : call) :
  x ∈ report c url ->
  (∃ err, x = Err (url_error url err))
  ∨ (∃ F T, x = Gauge (emitted_name c) F T).
Proof.
  unfold report, goroutine.
  destruct (gatherURL c [] url) as [[acc' ret] |] eqn:Hrun;
    cbn [mbind option_bind default]; [| intros Hx; apply elem_of_nil in Hx; destruct Hx].
  destruct (gatherURL_outcome c [] acc' url ret Hrun)
    as [[-> (F & T & ->)] | [-> (err & -> & _)]]; cbn [default app].
  - intros Hx. apply list_elem_of_singleton in Hx as ->. right. eauto.
  - intros Hx. apply list_elem_of_singleton in Hx as ->. left. eauto.
Qed.

(** Any order of the urls is an order in which the goroutines can
    finish. *)
Lemma finish_any_order (c : GoRuntime) (p running : list string) (acc : Accumulator) :
  (∀ body rd, Decode body = inr rd -> wf_RuntimeData rd) ->
  is_Some (client c) ->
  p ≡ₚ running ->
  rtc (finish c) (running, acc) ([], acc ++ (p ≫= report c)).
Proof.
  intros Hdec Hcl. revert running acc.
  induction p as [| url p IH]; intros running acc Hperm.
  - apply Permutation_nil_l in Hperm. subst running.
    change ([] ≫= report c) with (@nil call). rewrite app_nil_r. apply rtc_refl.
  - assert (url ∈ running) as Hin by (rewrite <- Hperm; apply list_elem_of_here).
    apply list_elem_of_split in Hin as (pre & post & ->).
    rewrite <- Permutation_middle in Hperm. apply Permutation_cons_inv in Hperm.
    destruct (goroutine_no_panic c url acc Hdec Hcl) as [acc1 Hrun].
    pose proof (goroutine_report c url acc acc1 Hrun) as ->.
    eapply rtc_l; [exact (finish_one c pre url post acc _ Hrun) |].
    rewrite bind_cons, app_assoc. apply IH. exact Hperm.
Qed.

(** X9.  [Gather] returns an error exactly when no client has been built
    yet and the TLS settings fail to build; the error is theirs, the
    accumulator has not changed, and the configuration has changed at
    most in the TLS settings, which are as [TLSConfig] left them: there
    is still no client. *)
Theorem Gather_fails_iff_tls_fails (c c' : GoRuntime) (acc acc' : Accumulator)
    (err : error) :
  Gather c acc c' acc' (Some err)
  ↔ client c = None
    ∧ (∃ settings msg,
         TLSConfig (ClientConfig c) = (settings, inl msg)
         ∧ err = External msg
         ∧ c' = after_TLSConfig c settings None)
    ∧ acc' = acc.
Proof.
  split.
  - intros Hg. remember (Some err) as ret eqn:Hret.
    destruct Hg as [c' err' Herr | c1 acc1 _ _]; [| discriminate].
    injection Hret as ->.
    apply Gather_client_inl in Herr as (Hcl & settings & msg & Htls & -> & ->).
    split; [exact Hcl |]. split; [| reflexivity].
    exists settings, msg. repeat split. exact Htls.
  - intros (Hcl & (settings & msg & Htls & -> & ->) & ->).
    apply Gather_err. apply Gather_client_inl. split; [exact Hcl |].
    exists settings, msg. repeat split. exact Htls.
Qed.

(** X10.  The client is built once.  A cycle that returns no error
    leaves the urls, the method, the measurement name, the credentials
    and the timeout as they were; when there was a client it leaves the
    whole configuration as it was; when there was none, the TLS settings
    are as [TLSConfig] left them and the client is the one built from
    its result, with the proxy of the environment and the configured
    timeout.  Every later cycle, whatever the collaborators have become,
    keeps that configuration and returns no error. *)
Theorem client_built_once (c c' : GoRuntime) (acc acc' : Accumulator) :
  Gather c acc c' acc' None ->
  Urls c' = Urls c ∧ Method c' = Method c ∧ Measurement c' = Measurement c
  ∧ Username c' = Username c ∧ Password c' = Password c
  ∧ Timeout c' = Timeout c
  ∧ (is_Some (client c) -> c' = c)
  ∧ (client c = None ->
     ∃ settings tlsCfg,
       TLSConfig (ClientConfig c) = (settings, inr tlsCfg)
       ∧ ClientConfig c' = settings
       ∧ client c' = Some {|
           http.ClientTransport := {|
             http.TLSClientConfig := tlsCfg;
             http.Proxy := http.ProxyFromEnvironment
           |};
           http.ClientTimeout := Timeout c
         |})
  ∧ (∀ (later : Collaborators) acc2 c2 acc2' ret,
       @Gather later c' acc2 c2 acc2' ret -> c2 = c' ∧ ret = None).
Proof.
  intros Hg. remember None as ret0 eqn:Hret0.
  destruct Hg as [c' err _ | c' acc' Hc _]; [discriminate |]. clear Hret0.
  assert (is_Some (client c')) as [cl Hcl'].
  { exact (proj1 (Gather_client_inr c c' Hc)). }
  unfold Gather_client in Hc.
  assert (∀ (later : Collaborators) acc2 c2 acc2' ret,
            @Gather later c' acc2 c2 acc2' ret -> c2 = c' ∧ ret = None) as Hlater.
  { intros later acc2 c2 acc2' ret Hg2.
    destruct Hg2 as [c3 err Herr | c3 acc3 Hc3 _].
    - unfold Gather_client in Herr. rewrite Hcl' in Herr. discriminate.
    - unfold Gather_client in Hc3. rewrite Hcl' in Hc3.
      injection Hc3 as <-. split; reflexivity. }
  destruct (client c) as [cl0 |] eqn:Hcl.
  - injection Hc as <-. split_and!; try reflexivity; try exact Hlater.
    intros [=].
  - destruct (TLSConfig (ClientConfig c)) as [settings [msg | tlsCfg]];
      [discriminate |].
    injection Hc as <-. cbn. split_and!; try reflexivity; try exact Hlater.
    + intros [? [=]].
    + intros _. exists settings, tlsCfg. split_and!; reflexivity.
Qed.

(** X11.  A cycle that returns no error has handed the accumulator one
    call per configured url, after what the accumulator held; with no
    url configured the accumulator is as it was.  Each call is an error
    labelled with one of the configured urls, or a gauge under the
    configured or default name. *)
Theorem one_report_per_url (c c' : GoRuntime) (acc acc' : Accumulator) :
  Gather c acc c' acc' None ->
  ∃ reports,
    acc' = acc ++ reports
    ∧ length reports = length (Urls c)
    ∧ (Urls c = [] -> acc' = acc)
    ∧ Forall (λ x,
        (∃ url err, url ∈ Urls c ∧ x = Err (url_error url err))
        ∨ (∃ F T, x = Gauge (emitted_name c) F T)) reports.
Proof.
  intros Hg. remember None as ret0 eqn:Hret0.
  destruct Hg as [c' err _ | c' acc' Hc Hrun]; [discriminate |]. clear Hret0.
  destruct (Gather_client_inr c c' Hc) as (_ & Hurls & _ & Hname & _).
  destruct (finish_run_reports c' _ _ Hrun) as (reports & Hacc & Hperm).
  pose proof (finish_run_singletons c' _ _ Hrun (Forall_nil_2 _)) as Hone.
  cbn [fst snd] in Hacc, Hperm, Hone.
  change ([] ≫= report c') with (@nil call) in Hperm. rewrite app_nil_r in Hperm.
  apply bind_singletons_length in Hone.
  rewrite Hurls in Hperm, Hone.
  exists reports. split; [exact Hacc |].
  split; [rewrite Hperm; exact Hone |].
  split.
  { intros Hnone. rewrite Hnone in Hperm. cbn in Hperm.
    apply Permutation_nil_r in Hperm. subst reports.
    rewrite Hacc, app_nil_r. reflexivity. }
  rewrite Hperm. apply Forall_forall. intros x Hx.
  apply list_elem_of_bind in Hx as (url & Hx & Hurl).
  apply report_labelled in Hx as [(err & ->) | (F & T & ->)].
  - left. eauto.
  - right. exists F, T. unfold emitted_name. rewrite Hname. reflexivity.
Qed.

(** X12.  No order is imposed on the goroutines: for every order [p] of
    the configured urls, the cycle can end with the reports handed over
    in that order. *)
Theorem any_report_order (c c' : GoRuntime) (acc : Accumulator) (p : list string) :
  (∀ body rd, Decode body = inr rd -> wf_RuntimeData rd) ->
  Gather_client c = inr c' ->
  p ≡ₚ Urls c ->
  Gather c acc c' (acc ++ (p ≫= report c')) None.
Proof.
  intros Hdec Hc Hperm.
  destruct (Gather_client_inr c c' Hc) as (Hcl & Hurls & _).
  apply Gather_nil; [exact Hc |].
  apply finish_any_order; [exact Hdec | exact Hcl |].
  rewrite Hurls. exact Hperm.
Qed.

End Cycle.

(** The cycle over the three sample endpoints has a run. *)
Lemma sample_cycle_run :
  ∃ acc',
    @Gather sample_server (polling_GoRuntime sample_urls "" None) []
      (polling_GoRuntime sample_urls "" (Some sample_Client)) acc' None.
Proof.
  destruct (@finish_progress sample_server
              (polling_GoRuntime sample_urls "" (Some sample_Client)) sample_urls []
              sample_server_Decode_wf (ex_intro _ sample_Client eq_refl))
    as [acc' Hrun].
  exists acc'. apply Gather_nil; [reflexivity | exact Hrun].
Defined.

Lemma client_built_once_witness :
  client (polling_GoRuntime sample_urls "" (Some sample_Client)) = Some sample_Client
  ∧ ∀ (later : Collaborators) acc2 c2 acc2' ret,
      @Gather later (polling_GoRuntime sample_urls "" (Some sample_Client))
        acc2 c2 acc2' ret ->
      c2 = polling_GoRuntime sample_urls "" (Some sample_Client) ∧ ret = None.
Proof.
  destruct sample_cycle_run as [acc' Hg].
  destruct (@client_built_once sample_server _ _ _ _ Hg)
    as (_ & _ & _ & _ & _ & _ & _ & Hbuilt & Hlater).
  split; [reflexivity | exact Hlater].
Defined.

(** With the CA file given under the deprecated name and no client yet,
    [Gather] returns the error of the TLS settings and leaves the
    configuration with the name taken over into [TLSCA]. *)
Lemma Gather_fails_iff_tls_fails_witness :
  ∃ c',
    @Gather sample_server (deprecated_GoRuntime sample_urls "/etc/ssl/ca.pem") []
      c' [] (Some (External "could not load certificate authority /etc/ssl/ca.pem"))
    ∧ tls.TLSCA (ClientConfig c') = "/etc/ssl/ca.pem"%string
    ∧ tls.TLSCA (ClientConfig (deprecated_GoRuntime sample_urls "/etc/ssl/ca.pem"))
      = ""%string
    ∧ client c' = None.
Proof.
  eexists. split.
  - apply (@Gather_fails_iff_tls_fails sample_server).
    split; [reflexivity |]. split; [| reflexivity].
    do 2 eexists. split; [reflexivity |]. split; reflexivity.
  - split; [reflexivity |]. split; reflexivity.
Defined.

Lemma one_report_per_url_witness :
  ∃ acc',
    @Gather sample_server (polling_GoRuntime sample_urls "" None) []
      (polling_GoRuntime sample_urls "" (Some sample_Client)) acc' None
    ∧ length acc' = 3%nat.
Proof.
  destruct sample_cycle_run as [acc' Hg].
  exists acc'. split; [exact Hg |].
  destruct (@one_report_per_url sample_server _ _ _ _ Hg)
    as (reports & -> & Hlen & _).
  exact Hlen.
Defined.

(** The reports of the sample endpoints can come in as [c], [a], [b]. *)
Lemma any_report_order_witness :
  @Gather sample_server (polling_GoRuntime sample_urls "" None) []
    (polling_GoRuntime sample_urls "" (Some sample_Client))
    ([] ++ (["http://c:8062/debug/vars"; "http://a:8062/debug/vars";
             "http://b:8062/debug/vars"]%string
            ≫= @report sample_server
                 (polling_GoRuntime sample_urls "" (Some sample_Client))))
    None.
Proof.
  apply (@any_report_order sample_server).
  - exact sample_server_Decode_wf.
  - reflexivity.
  - exact (Permutation_cons_append
             ["http://a:8062/debug/vars"; "http://b:8062/debug/vars"]%string
             "http://c:8062/debug/vars"%string).
Defined.

(** X13.  Fields and tags do not mix: the tag mapping of a Transform
    depends on the serial of the snapshot alone, and the field mapping on
    everything but the serial. *)
Theorem tags_and_fields_separate (rd1 rd2 : RuntimeData)
    (F1 F2 : gmap string value) (T1 T2 : gmap string string) :
  Transform rd1 = Some (F1, T1) ->
  Transform rd2 = Some (F2, T2) ->
  (RuntimeData.Serial rd1 = RuntimeData.Serial rd2 -> T1 = T2)
  ∧ (RuntimeData.CPUNum rd1 = RuntimeData.CPUNum rd2 ->
     RuntimeData.ThreadNum rd1 = RuntimeData.ThreadNum rd2 ->
     RuntimeData.GoRoutineNum rd1 = RuntimeData.GoRoutineNum rd2 ->
     RuntimeData.CpuPercent rd1 = RuntimeData.CpuPercent rd2 ->
     RuntimeData.MemPercent rd1 = RuntimeData.MemPercent rd2 ->
     RuntimeData.Memstats rd1 = RuntimeData.Memstats rd2 ->
     F1 = F2).
Proof.
  intros HT1 HT2.
  destruct (Transform_fields rd1 F1 T1 HT1) as (f1 & p1 & Hf1 & -> & -> & Hp1 & _).
  destruct (Transform_fields rd2 F2 T2 HT2) as (f2 & p2 & Hf2 & -> & -> & Hp2 & _).
  unfold parse_fields, collectGCStats in Hf1, Hf2.
  rewrite pause_index, Hp1 in Hf1. rewrite pause_index, Hp2 in Hf2.
  cbn [mbind option_bind] in Hf1, Hf2.
  injection Hf1 as <-. injection Hf2 as <-.
  split.
  - intros Hserial. unfold Tags. cbn [Fields.Serial collectMemStats].
    rewrite Hserial. reflexivity.
  - intros H1 H2 H3 H4 H5 Hm. rewrite Hm in Hp1. rewrite Hp1 in Hp2.
    injection Hp2 as ->.
    unfold Values. cbn. rewrite H1, H2, H3, H4, H5, Hm. reflexivity.
Qed.

Lemma tags_and_fields_separate_witness :
  ∃ F1 T1 F2 T2,
    Transform sample_RuntimeData = Some (F1, T1)
    ∧ Transform
        (RuntimeData.Build_RuntimeData "node-8" 8 12 40 35 60 sample_MemStats)
      = Some (F2, T2)
    ∧ F1 = F2.
Proof.
  destruct (Transform_total sample_RuntimeData wf_sample) as [[F1 T1] HT1].
  destruct (Transform_total
              (RuntimeData.Build_RuntimeData "node-8" 8 12 40 35 60 sample_MemStats))
    as [[F2 T2] HT2].
  { destruct wf_sample as [Hints Hm]. split; [exact Hints | exact Hm]. }
  exists F1, T1, F2, T2. split; [exact HT1 |]. split; [exact HT2 |].
  apply (proj2 (tags_and_fields_separate _ _ _ _ _ _ HT1 HT2)); reflexivity.
Defined.
